(** * Github Heroes: the widget layer (combat dialog, player view, recycler)

    A shallow embedding of [ui/widgets/combat_dialog.py],
    [ui/widgets/player_view.py] and [ui/widgets/recycler_dialog.py].

    Python integers are [Z].  A widget method is a computation over the state
    it reads and mutates which also emits, in program order, the calls it
    makes into [data.repositories], [data.database] and [game.logic] and the
    toolkit calls it makes (labels, progress bars, tables, message boxes,
    timers, signals).  The collaborators themselves are not part of the widget
    layer: they are the fields of a [Backend] over which every statement is
    quantified. *)

From stdpp Require Import base option list gmap strings pretty.
From Stdlib Require Import ZArith Lia Ascii.

Local Open Scope Z_scope.

(** ** Values of [data.models], as far as the widgets use them *)

Module Player.
Record t := mk {
  id : Z; name : string; level : Z; xp : Z;
  hp : Z; attack : Z; defense : Z; speed : Z; luck : Z;
  github_handle : option string
}.

(** [player.hp = v] *)
Definition set_hp (v : Z) (p : t) : t :=
  mk (id p) (name p) (level p) (xp p) v
     (attack p) (defense p) (speed p) (luck p) (github_handle p).
End Player.

Module Enemy.
Record t := mk { name : string; level : Z; hp : Z; attack : Z; defense : Z }.
End Enemy.

Module Item.
(** [stat_bonuses] is what [item.get_stat_bonuses()] returns: a dict, kept
    as its [items()] sequence because the widgets iterate over it. *)
Record t := mk {
  id : Z; name : string; rarity : string;
  stat_bonuses : list (string * Z)
}.
Definition get_stat_bonuses (i : t) : list (string * Z) := stat_bonuses i.
End Item.

(** One row of [ItemRepository.get_player_inventory]:
    [(item, quantity, equipped)]. *)
Definition InvEntry : Type := Item.t * Z * bool.

Module World.
Record t := mk { id : Z; name : string }.
End World.

Module Quest.
Record t := mk { status : string }.
End Quest.

(** [handle_defeat] returns a dict read at ['xp_lost']. *)
Record Penalties := mkPenalties { xp_lost : Z }.

(** ** Text formatting *)

(** [str(n)] inside an f-string. *)
Definition str (n : Z) : string := pretty n.

Definition nl : string := String (Ascii.ascii_of_nat 10) EmptyString.

(** [sep.join(parts)] *)
Fixpoint join (sep : string) (parts : list string) : string :=
  match parts with
  | [] => ""
  | [s] => s
  | s :: rest => s +:+ sep +:+ join sep rest
  end.

(** [", ".join([f"{k}: +{v}" for k, v in bonuses.items()])] *)
Definition bonuses_str (bonuses : list (string * Z)) : string :=
  join ", " (map (fun kv => kv.1 +:+ ": +" +:+ str kv.2) bonuses).

(** ** What a widget method does to the outside *)

(** Calls into the collaborators, with their arguments. *)
Inductive Call :=
| GetById (item_id : Z)
| GetPlayerInventory (player_id : Z)
| GetInventoryCount (player_id : Z)
| RemoveFromInventory (player_id item_id quantity : Z)
| EquipItem (player_id item_id : Z)
| UnequipItem (player_id item_id : Z)
| UpdatePlayer (player : Player.t)
| GetAllWorlds
| GetQuestsByWorldId (world_id : Z)
| AwardXp (player : Player.t) (amount : Z)
| CombatTurn (player : Player.t) (enemy : Enemy.t) (action : string)
| HandleVictory (player : Player.t) (enemy : Enemy.t) (loot_quality : Z)
| HandleDefeat (player : Player.t)
| CalculateInventorySpace (level : Z)
| GetSetting (key default : string).

(** The widget placed in the last column of an inventory row.  A Sell cell
    keeps the arguments given to [setMinimum], [setMaximum] and [setValue] of
    its spin box, and the item id its button is bound to; [spin_box_of] below
    tells the spin box they leave. *)
Inductive CellWidget :=
| SellCell (spin_minimum spin_maximum spin_value item_id : Z)
| EquipButton (item_id : Z)
| UnequipButton (item_id : Z).

(** The second argument of [combat_ended.emit]. *)
Inductive Payload :=
| VictoryData (loot : option Item.t) (xp : Z) (leveled_up : bool)
| DefeatData (penalties : Penalties)
| NoData.

(** Toolkit calls, with the arguments the method gives them; the first
    argument names the attribute of [self]. *)
Inductive Gui :=
| setText (widget text : string)
| setMaximum (widget : string) (v : Z)
| setValue (widget : string) (v : Z)
| setRowCount (widget : string) (n : Z)
| insertRow (widget : string) (row : nat)
| setItem (widget : string) (row col : nat) (text : string)
| setCellWidget (widget : string) (row col : nat) (w : CellWidget)
| setEnabled (widget : string) (b : bool)
| append (widget text : string)
| information (title text : string)
| warning (title text : string)
| singleShot_update_display (msec : Z)
| emit (signal result : string) (data : Payload)
| accept
| reject.

Inductive Event :=
| Called (c : Call)
| Ui (g : Gui).

Definition Trace := list Event.

(** ** Widget methods as computations

    [Run St A]: from a state, either return normally or raise, with the
    state reached and the events emitted so far. *)

Inductive Res (A : Type) :=
| Ok (a : A)
| Raised (exn : string).
Arguments Ok {A} a.
Arguments Raised {A} exn.

Definition Run (St A : Type) : Type := St -> Res A * St * Trace.

Definition ret {St A} (a : A) : Run St A := fun s => (Ok a, s, []).

Definition bind {St A B} (m : Run St A) (k : A -> Run St B) : Run St B :=
  fun s =>
    match m s with
    | (Ok a, s1, t1) =>
        match k a s1 with (r, s2, t2) => (r, s2, t1 ++ t2) end
    | (Raised e, s1, t1) => (Raised e, s1, t1)
    end.

Definition raise {St A} (exn : string) : Run St A := fun s => (Raised exn, s, []).
Definition get {St} : Run St St := fun s => (Ok s, s, []).
Definition put {St} (s : St) : Run St unit := fun _ => (Ok tt, s, []).
Definition tell {St} (e : Event) : Run St unit := fun s => (Ok tt, s, [e]).
Definition gui {St} (g : Gui) : Run St unit := tell (Ui g).

(** stdpp's monad notations: [x ← m; k], ['(a, b) ← m; k] and [m;; k]. *)
#[global] Instance run_mret {St} : MRet (Run St) := fun A a => ret a.
#[global] Instance run_mbind {St} : MBind (Run St) := fun A B k m => bind m k.

(** [for i, x in enumerate(l, start): body] *)
Fixpoint for_each {St A} (body : nat -> A -> Run St unit) (start : nat) (l : list A)
  : Run St unit :=
  match l with
  | [] => ret tt
  | x :: rest => bind (body start x) (fun _ => for_each body (S start) rest)
  end.

Definition result_of {St A} (o : Res A * St * Trace) : Res A := o.1.1.
Definition state_of {St A} (o : Res A * St * Trace) : St := o.1.2.
Definition trace_of {St A} (o : Res A * St * Trace) : Trace := o.2.

(** ** The collaborators

    [data.repositories], [data.database] and [game.logic] are used by the
    widgets but are not part of them.  [DB] is whatever they persist;
    a function that mutates its player argument returns the mutated player. *)

Class Backend (DB : Type) := {
  ItemRepository_get_by_id : DB -> Z -> option Item.t;
  ItemRepository_get_player_inventory : DB -> Z -> list InvEntry;
  ItemRepository_get_inventory_count : DB -> Z -> Z;
  ItemRepository_remove_from_inventory : Z -> Z -> Z -> DB -> DB;
  ItemRepository_equip_item : Z -> Z -> DB -> DB;
  ItemRepository_unequip_item : Z -> Z -> DB -> DB;
  PlayerRepository_update : Player.t -> DB -> DB;
  RepoWorldRepository_get_all : DB -> list World.t;
  QuestRepository_get_by_world_id : DB -> Z -> list Quest.t;
  get_setting : DB -> string -> string -> string;
  award_xp : Player.t -> Z -> Player.t * bool;
  combat_turn :
    Player.t -> Enemy.t -> string -> Player.t * Enemy.t * (string * bool * string);
  handle_victory :
    Player.t -> Enemy.t -> Z -> DB -> Player.t * DB * (option Item.t * Z * bool);
  handle_defeat : Player.t -> DB -> Player.t * DB * Penalties;
  calculate_inventory_space : Z -> Z
}.

(** Where a widget's state keeps the database. *)
Class HasDB (St DB : Type) := {
  the_db : St -> DB;
  with_db : DB -> St -> St
}.

(** A call that reads the database. *)
Definition query {St DB A} `{HasDB St DB} (c : Call) (f : DB -> A) : Run St A :=
  fun s => (Ok (f (the_db s)), s, [Called c]).

(** A call that writes the database. *)
Definition command {St DB} `{HasDB St DB} (c : Call) (f : DB -> DB) : Run St unit :=
  fun s => (Ok tt, with_db (f (the_db s)) s, [Called c]).

(** A call that reads and writes the database and returns a value. *)
Definition transact {St DB A} `{HasDB St DB} (c : Call) (f : DB -> A * DB) : Run St A :=
  fun s => let '(a, d) := f (the_db s) in (Ok a, with_db d s, [Called c]).

(** A call into [game.logic] that touches nothing but its arguments. *)
Definition compute {St A} (c : Call) (a : A) : Run St A :=
  fun s => (Ok a, s, [Called c]).

(** [get_game_state()] and the database, as the widgets see them. *)
Record GameState (DB : Type) := mkGameState {
  db : DB;
  current_player : option Player.t
}.
Arguments mkGameState {DB} db current_player.
Arguments db {DB} g.
Arguments current_player {DB} g.

#[global] Instance GameState_HasDB {DB} : HasDB (GameState DB) DB := {
  the_db := db;
  with_db := fun d g => mkGameState d (current_player g)
}.

(** [game_state.current_player] mutated in place. *)
Definition set_current_player {DB} (p : Player.t) : Run (GameState DB) unit :=
  fun g => (Ok tt, mkGameState (db g) (Some p), []).

(** ** Equipped-item bonuses

    The same loop stands in [PlayerView.refresh] (lines 139-146) and in
    [CombatDialog.__init__] (lines 35-42). *)

Definition zero_bonuses : gmap string Z :=
  {[ "hp" := 0; "attack" := 0; "defense" := 0; "speed" := 0; "luck" := 0 ]}.

(** [if stat in equipped_bonuses: equipped_bonuses[stat] += bonus] *)
Definition add_bonus (acc : gmap string Z) (sb : string * Z) : gmap string Z :=
  match acc !! sb.1 with
  | Some v => <[ sb.1 := v + sb.2 ]> acc
  | None => acc
  end.

(** The body of [for item, quantity, equipped in inventory]. *)
Definition add_entry (acc : gmap string Z) (e : InvEntry) : gmap string Z :=
  let '(item, quantity, equipped) := e in
  if (equipped : bool) then foldl add_bonus acc (Item.get_stat_bonuses item) else acc.

Definition sum_equipped_bonuses (inventory : list InvEntry) : gmap string Z :=
  foldl add_entry zero_bonuses inventory.

(** [d[key]] on a dict that holds the key (the five stats always do). *)
Definition getitem (d : gmap string Z) (key : string) : Z := default 0 (d !! key).

(** What the aggregation is meant to compute: the bonus an item gives to one
    stat, and its sum over the equipped entries of an inventory. *)
Definition pairs_bonus (stat : string) (bonuses : list (string * Z)) : Z :=
  foldr Z.add 0 (map snd (filter (fun sb => sb.1 = stat) bonuses)).

Definition item_bonus (stat : string) (item : Item.t) : Z :=
  pairs_bonus stat (Item.get_stat_bonuses item).

Definition equipped_total (stat : string) (inventory : list InvEntry) : Z :=
  foldr Z.add 0
    (map (fun e : InvEntry => item_bonus stat e.1.1)
         (filter (fun e : InvEntry => e.2 = true) inventory)).

Definition known_stats : list string := ["hp"; "attack"; "defense"; "speed"; "luck"].

(** ** [RecyclerDialog] *)

Module RecyclerDialog.
Section Methods.
Context {DB : Type} `{!Backend DB}.

(** The static rarity table of [sell_item]. *)
Definition rarity_xp : gmap string Z :=
  {[ "common" := 5; "uncommon" := 10; "rare" := 25; "epic" := 50; "legendary" := 100 ]}.

(** [rarity_xp.get(item.rarity, 5) * quantity] *)
Definition xp_reward (item : Item.t) (quantity : Z) : Z :=
  default 5 (rarity_xp !! Item.rarity item) * quantity.

Definition level_up_msg (name : string) (level : Z) : string :=
  "🎉 LEVEL UP! 🎉" +:+ nl +:+ nl +:+
  "Congratulations, " +:+ name +:+ "!" +:+ nl +:+
  "You have reached Level " +:+ str level +:+ "!" +:+ nl +:+ nl +:+
  "Your stats have increased:" +:+ nl +:+
  "• HP: +10" +:+ nl +:+
  "• Attack: +2" +:+ nl +:+
  "• Defense: +1" +:+ nl +:+
  "• Speed: +1" +:+ nl +:+
  "• Luck: +1" +:+ nl +:+ nl +:+
  "Keep fighting to become even stronger!".

(** [f"Sold {quantity}x {item.name} for {xp_reward} XP!"] *)
Definition sold_message (quantity : Z) (item : Item.t) (xp : Z) : string :=
  "Sold " +:+ str quantity +:+ "x " +:+ Item.name item +:+ " for " +:+ str xp +:+ " XP!".

(** One row of the table: name, rarity, bonuses, quantity, and the spin box
    with its Sell button. *)
Definition inventory_row (row : nat) (e : InvEntry) : Run (GameState DB) unit :=
  let '(item, quantity, equipped) := e in
  gui (insertRow "inventory_table" row);;
  let name_text :=
    if (equipped : bool) then Item.name item +:+ " [EQUIPPED]" else Item.name item in
  gui (setItem "inventory_table" row 0 name_text);;
  gui (setItem "inventory_table" row 1 (Item.rarity item));;
  gui (setItem "inventory_table" row 2 (bonuses_str (Item.get_stat_bonuses item)));;
  gui (setItem "inventory_table" row 3 (str quantity));;
  gui (setCellWidget "inventory_table" row 4 (SellCell 1 quantity 1 (Item.id item))).

Definition refresh_inventory : Run (GameState DB) unit :=
  gui (setRowCount "inventory_table" 0);;
  game_state ← get;
  match current_player game_state with
  | None => mret tt
  | Some player =>
      inventory ← query (GetPlayerInventory (Player.id player))
                        (fun d => ItemRepository_get_player_inventory d (Player.id player));
      for_each inventory_row 0%nat inventory
  end.

Definition sell_item (item_id quantity : Z) : Run (GameState DB) unit :=
  game_state ← get;
  match current_player game_state with
  | None => mret tt
  | Some player =>
      item ← query (GetById item_id) (fun d => ItemRepository_get_by_id d item_id);
      match item with
      | None => mret tt
      | Some item =>
          let xp_reward := xp_reward item quantity in
          command (RemoveFromInventory (Player.id player) item_id quantity)
                  (ItemRepository_remove_from_inventory (Player.id player) item_id quantity);;
          '(player', leveled_up) ← compute (AwardXp player xp_reward)
                                           (award_xp player xp_reward);
          set_current_player player';;
          command (UpdatePlayer player') (PlayerRepository_update player');;
          refresh_inventory;;
          gui (information "Item Sold" (sold_message quantity item xp_reward));;
          if (leveled_up : bool)
          then gui (information "Level Up!"
                      (level_up_msg (Player.name player') (Player.level player')))
          else mret tt
      end
  end.

End Methods.
End RecyclerDialog.

(** ** [PlayerView] *)

Module PlayerView.
Section Methods.
Context {DB : Type} `{!Backend DB}.

(** [f"{label}: {total} ({base} + {bonus})"] *)
Definition stat_text (label : string) (base bonus : Z) : string :=
  label +:+ ": " +:+ str (base + bonus) +:+ " (" +:+ str base +:+ " + " +:+ str bonus +:+ ")".

(** One row of the table: name, rarity, bonuses, quantity, equipped, and the
    Equip or Unequip button. *)
Definition inventory_row (row : nat) (e : InvEntry) : Run (GameState DB) unit :=
  let '(item, quantity, equipped) := e in
  gui (insertRow "inventory_table" row);;
  let name_text :=
    if (equipped : bool) then Item.name item +:+ " [EQUIPPED]" else Item.name item in
  gui (setItem "inventory_table" row 0 name_text);;
  gui (setItem "inventory_table" row 1 (Item.rarity item));;
  gui (setItem "inventory_table" row 2 (bonuses_str (Item.get_stat_bonuses item)));;
  gui (setItem "inventory_table" row 3 (str quantity));;
  gui (setItem "inventory_table" row 4 (if (equipped : bool) then "Yes" else "No"));;
  gui (setCellWidget "inventory_table" row 5
         (if (equipped : bool) then UnequipButton (Item.id item)
          else EquipButton (Item.id item))).

(** [sum(1 for w in worlds for q in QuestRepository.get_by_world_id(w.id)
         if q.status == "completed")] *)
Fixpoint completed_quests (worlds : list World.t) : Run (GameState DB) Z :=
  match worlds with
  | [] => mret 0
  | w :: rest =>
      quests ← query (GetQuestsByWorldId (World.id w))
                     (fun d => QuestRepository_get_by_world_id d (World.id w));
      n ← completed_quests rest;
      mret (Z.of_nat (length (filter (fun q => Quest.status q = "completed") quests)) + n)
  end.

Definition refresh : Run (GameState DB) unit :=
  game_state ← get;
  match current_player game_state with
  | None => gui (setText "name_label" "Name: No player selected")
  | Some player =>
      gui (setText "name_label" ("Name: " +:+ Player.name player));;
      gui (setText "level_label" ("Level: " +:+ str (Player.level player)));;
      gui (setText "xp_label"
             ("XP: " +:+ str (Player.xp player) +:+ " / " +:+ str (Player.level player * 100)));;
      gui (setMaximum "xp_bar" (Player.level player * 100));;
      gui (setValue "xp_bar" (Player.xp player));;
      let base_hp := Player.hp player in
      let base_attack := Player.attack player in
      let base_defense := Player.defense player in
      let base_speed := Player.speed player in
      let base_luck := Player.luck player in
      inventory ← query (GetPlayerInventory (Player.id player))
                        (fun d => ItemRepository_get_player_inventory d (Player.id player));
      let equipped_bonuses := sum_equipped_bonuses inventory in
      gui (setText "hp_label" (stat_text "HP" base_hp (getitem equipped_bonuses "hp")));;
      gui (setText "attack_label"
             (stat_text "Attack" base_attack (getitem equipped_bonuses "attack")));;
      gui (setText "defense_label"
             (stat_text "Defense" base_defense (getitem equipped_bonuses "defense")));;
      gui (setText "speed_label"
             (stat_text "Speed" base_speed (getitem equipped_bonuses "speed")));;
      gui (setText "luck_label" (stat_text "Luck" base_luck (getitem equipped_bonuses "luck")));;
      inventory_count ← query (GetInventoryCount (Player.id player))
                              (fun d => ItemRepository_get_inventory_count d (Player.id player));
      max_inventory ← compute (CalculateInventorySpace (Player.level player))
                              (calculate_inventory_space (Player.level player));
      gui (setText "inventory_space_label"
             ("Inventory: " +:+ str inventory_count +:+ "/" +:+ str max_inventory));;
      gui (setRowCount "inventory_table" 0);;
      for_each inventory_row 0%nat inventory;;
      worlds ← query GetAllWorlds RepoWorldRepository_get_all;
      completed ← completed_quests worlds;
      gui (setText "achievements_label"
             (join nl ["Worlds Discovered: " +:+ str (Z.of_nat (length worlds));
                       "Quests Completed: " +:+ str completed]))
  end.

Definition equip_item (item_id : Z) : Run (GameState DB) unit :=
  game_state ← get;
  match current_player game_state with
  | None => mret tt
  | Some player =>
      command (EquipItem (Player.id player) item_id)
              (ItemRepository_equip_item (Player.id player) item_id);;
      refresh
  end.

Definition unequip_item (item_id : Z) : Run (GameState DB) unit :=
  game_state ← get;
  match current_player game_state with
  | None => mret tt
  | Some player =>
      command (UnequipItem (Player.id player) item_id)
              (ItemRepository_unequip_item (Player.id player) item_id);;
      refresh
  end.

End Methods.
End PlayerView.

(** ** Built-ins *)

(** A Python [str] is kept as the bytes of its UTF-8 encoding; [int(s)] reads
    its code points.  [None]: the bytes are no UTF-8 encoding of code points
    (no [str] has them). *)
Definition continuation (b : Z) : option Z :=
  if (128 <=? b) && (b <? 192) then Some (b - 128) else None.

Fixpoint decode_utf8 (bytes : list Z) : option (list Z) :=
  match bytes with
  | [] => Some []
  | b0 :: rest =>
      if b0 <? 128 then cons b0 <$> decode_utf8 rest
      else if (192 <=? b0) && (b0 <? 224) then
        match rest with
        | b1 :: rest1 =>
            c1 ← continuation b1;
            let cp := (b0 - 192) * 64 + c1 in
            if 128 <=? cp then cons cp <$> decode_utf8 rest1 else None
        | _ => None
        end
      else if (224 <=? b0) && (b0 <? 240) then
        match rest with
        | b1 :: b2 :: rest2 =>
            c1 ← continuation b1;
            c2 ← continuation b2;
            let cp := ((b0 - 224) * 64 + c1) * 64 + c2 in
            if (2048 <=? cp) && negb ((55296 <=? cp) && (cp <=? 57343))
            then cons cp <$> decode_utf8 rest2 else None
        | _ => None
        end
      else if (240 <=? b0) && (b0 <? 248) then
        match rest with
        | b1 :: b2 :: b3 :: rest3 =>
            c1 ← continuation b1;
            c2 ← continuation b2;
            c3 ← continuation b3;
            let cp := (((b0 - 240) * 64 + c1) * 64 + c2) * 64 + c3 in
            if (65536 <=? cp) && (cp <=? 1114111)
            then cons cp <$> decode_utf8 rest3 else None
        | _ => None
        end
      else None
  end.

Definition code_points (s : string) : option (list Z) :=
  decode_utf8 (map (fun c => Z.of_nat (Ascii.nat_of_ascii c)) (String.list_ascii_of_string s)).

(** The white space [int] skips: the ASCII characters tab, line feed,
    vertical tab, form feed, carriage return and space. *)
Definition is_space (c : Z) : bool := (9 <=? c) && (c <=? 13) || (c =? 32).

(** The white space above ASCII ([str.isspace]): next line, no-break space,
    ogham space mark, en quad to hair space, line and paragraph separator,
    narrow no-break space, medium mathematical space, ideographic space. *)
Definition is_unicode_space (c : Z) : bool :=
  (c =? 133) || (c =? 160) || (c =? 5760) || (8192 <=? c) && (c <=? 8202)
  || (c =? 8232) || (c =? 8233) || (c =? 8239) || (c =? 8287) || (c =? 12288).

(** The code points of the digit zero of every decimal script above ASCII
    (Unicode 14.0, general category Nd); the digits one to nine follow each. *)
Definition decimal_zeros : list Z :=
  [
    1632; 1776; 1984; 2406; 2534; 2662; 2790; 2918; 3046; 3174; 3302; 3430; 3558; 3664;
    3792; 3872; 4160; 4240; 6112; 6160; 6470; 6608; 6784; 6800; 6992; 7088; 7232; 7248;
    42528; 43216; 43264; 43472; 43504; 43600; 44016; 65296; 66720; 68912; 69734; 69872;
    69942; 70096; 70384; 70736; 70864; 71248; 71360; 71472; 71904; 72016; 72784; 73040;
    73120; 92768; 92864; 93008; 120782; 120792; 120802; 120812; 120822; 123200; 123632;
    125264; 130032 ].

Definition unicode_decimal (c : Z) : option Z :=
  match List.find (fun z => (z <=? c) && (c <=? z + 9)) decimal_zeros with
  | Some z => Some (c - z)
  | None => None
  end.

(** What [int] makes of a code point before parsing: ASCII stays, white
    space becomes a space, a decimal digit its ASCII digit, anything else a
    question mark. *)
Definition to_ascii (c : Z) : Z :=
  if c <? 127 then c
  else if is_unicode_space c then 32
  else match unicode_decimal c with
       | Some d => 48 + d
       | None => 63
       end.

Definition digit_of (c : Z) : option Z :=
  if (48 <=? c) && (c <=? 57) then Some (c - 48) else None.

(** Decimal digits, single underscores allowed between two digits. *)
Fixpoint digits (acc : Z) (after_digit : bool) (l : list Z) : option Z :=
  match l with
  | [] => if after_digit then Some acc else None
  | c :: rest =>
      if c =? 95
      then (if after_digit then digits acc false rest else None)
      else match digit_of c with
           | Some d => digits (10 * acc + d) true rest
           | None => None
           end
  end.

Definition strip (l : list Z) : list Z :=
  let drop := fix drop (l : list Z) : list Z :=
    match l with
    | c :: rest => if is_space c then drop rest else l
    | [] => []
    end in
  reverse (drop (reverse (drop l))).

(** More digits than this and [int] refuses the string (the default of
    [sys.set_int_max_str_digits]). *)
Definition max_str_digits : Z := 4300.

Definition unsigned (l : list Z) : option Z :=
  let is_digit := fun c => (48 <=? c) && (c <=? 57) in
  if max_str_digits <? Z.of_nat (length (List.filter is_digit l))
  then None
  else digits 0 false l.

(** [int(s)] as CPython 3.11 computes it: surrounding white space, an
    optional sign, decimal digits of any script.  [None] is [ValueError]. *)
Definition py_int (s : string) : option Z :=
  match code_points s with
  | None => None
  | Some cs =>
      match strip (map to_ascii cs) with
      | c :: rest =>
          if c =? 45 then Z.opp <$> unsigned rest
          else if c =? 43 then unsigned rest
          else unsigned (c :: rest)
      | [] => None
      end
  end.

(** ** [CombatDialog] *)

Module CombatDialog.

(** The attributes of [self] that the methods read and write, and the
    database behind the repositories. *)
Record t (DB : Type) := mk {
  player : Player.t;
  enemy : Enemy.t;
  loot_quality : Z;
  equipped_bonuses : gmap string Z;
  combat_player : Player.t;
  database : DB
}.
Arguments mk {DB}.
Arguments player {DB}.
Arguments enemy {DB}.
Arguments loot_quality {DB}.
Arguments equipped_bonuses {DB}.
Arguments combat_player {DB}.
Arguments database {DB}.

#[global] Instance t_HasDB {DB} : HasDB (t DB) DB := {
  the_db := database;
  with_db := fun d s =>
    mk (player s) (enemy s) (loot_quality s) (equipped_bonuses s) (combat_player s) d
}.

Section Methods.
Context {DB : Type} `{!Backend DB}.

Definition level_up_msg (name : string) (level : Z) : string :=
  "ðŸŽ‰ LEVEL UP! ðŸŽ‰" +:+ nl +:+ nl +:+
  "Congratulations, " +:+ name +:+ "!" +:+ nl +:+
  "You have reached Level " +:+ str level +:+ "!" +:+ nl +:+ nl +:+
  "Your stats have increased:" +:+ nl +:+
  "â€¢ HP: +10" +:+ nl +:+
  "â€¢ Attack: +2" +:+ nl +:+
  "â€¢ Defense: +1" +:+ nl +:+
  "â€¢ Speed: +1" +:+ nl +:+
  "â€¢ Luck: +1" +:+ nl +:+ nl +:+
  "Keep fighting to become even stronger!".

(** [f"HP: {max(hp, 0)} | Attack: {attack} | Defense: {defense}"] *)
Definition stats_text (hp attack defense : Z) : string :=
  "HP: " +:+ str (Z.max hp 0) +:+ " | Attack: " +:+ str attack
  +:+ " | Defense: " +:+ str defense.

(** [f"{name} (Level {level})"] *)
Definition name_text (name : string) (level : Z) : string :=
  name +:+ " (Level " +:+ str level +:+ ")".

(** The progress bars as [init_ui] sets them up (layout and button
    construction emit nothing that is read back). *)
Definition init_ui : Run (t DB) unit :=
  self ← get;
  gui (setMaximum "enemy_hp_bar" (Enemy.hp (enemy self)));;
  gui (setValue "enemy_hp_bar" (Enemy.hp (enemy self)));;
  gui (setMaximum "player_hp_bar" (Player.hp (player self)));;
  gui (setValue "player_hp_bar" (Player.hp (player self))).

Definition update_display : Run (t DB) unit :=
  self ← get;
  let enemy := enemy self in
  let combat_player := combat_player self in
  gui (setText "enemy_name_label" (name_text (Enemy.name enemy) (Enemy.level enemy)));;
  gui (setMaximum "enemy_hp_bar" (Z.max (Enemy.hp enemy) 1));;
  gui (setValue "enemy_hp_bar" (Z.max (Enemy.hp enemy) 0));;
  gui (setText "enemy_stats_label"
         (stats_text (Enemy.hp enemy) (Enemy.attack enemy) (Enemy.defense enemy)));;
  gui (setText "player_name_label"
         (name_text (Player.name combat_player) (Player.level combat_player)));;
  gui (setMaximum "player_hp_bar" (Z.max (Player.hp combat_player) 1));;
  gui (setValue "player_hp_bar" (Z.max (Player.hp combat_player) 0));;
  gui (setText "player_stats_label"
         (stats_text (Player.hp combat_player) (Player.attack combat_player)
            (Player.defense combat_player))).

(** [CombatDialog(player, enemy, loot_quality)] over a database. *)
Definition init (player : Player.t) (enemy : Enemy.t) (loot_quality : Z) (d : DB)
  : Res unit * t DB * Trace :=
  let inventory := ItemRepository_get_player_inventory d (Player.id player) in
  let equipped_bonuses := sum_equipped_bonuses inventory in
  let combat_player :=
    Player.mk (Player.id player) (Player.name player) (Player.level player) (Player.xp player)
      (Player.hp player + getitem equipped_bonuses "hp")
      (Player.attack player + getitem equipped_bonuses "attack")
      (Player.defense player + getitem equipped_bonuses "defense")
      (Player.speed player + getitem equipped_bonuses "speed")
      (Player.luck player + getitem equipped_bonuses "luck")
      (Player.github_handle player) in
  (tell (Called (GetPlayerInventory (Player.id player)));; init_ui;; update_display)
    (mk player enemy loot_quality equipped_bonuses combat_player d).

(** [combat_turn(self.combat_player, self.enemy, action)]: both arguments are
    mutated in place. *)
Definition call_combat_turn (action : string) : Run (t DB) (string * bool * string) :=
  fun self =>
    let '(cp, e, out) := combat_turn (combat_player self) (enemy self) action in
    (Ok out,
     mk (player self) e (loot_quality self) (equipped_bonuses self) cp (database self),
     [Called (CombatTurn (combat_player self) (enemy self) action)]).

(** [self.player.hp = max(1, self.combat_player.hp - self.equipped_bonuses["hp"])] *)
Definition write_back_hp : Run (t DB) unit :=
  fun self =>
    let hp := Z.max 1 (Player.hp (combat_player self) - getitem (equipped_bonuses self) "hp") in
    (Ok tt,
     mk (Player.set_hp hp (player self)) (enemy self) (loot_quality self)
        (equipped_bonuses self) (combat_player self) (database self),
     []).

(** [handle_victory(self.player, self.enemy, self.loot_quality)]: the player
    is mutated in place. *)
Definition call_handle_victory : Run (t DB) (option Item.t * Z * bool) :=
  fun self =>
    let '(p, d, out) :=
      handle_victory (player self) (enemy self) (loot_quality self) (database self) in
    (Ok out,
     mk p (enemy self) (loot_quality self) (equipped_bonuses self) (combat_player self) d,
     [Called (HandleVictory (player self) (enemy self) (loot_quality self))]).

(** [handle_defeat(self.player)]: the player is mutated in place. *)
Definition call_handle_defeat : Run (t DB) Penalties :=
  fun self =>
    let '(p, d, out) := handle_defeat (player self) (database self) in
    (Ok out,
     mk p (enemy self) (loot_quality self) (equipped_bonuses self) (combat_player self) d,
     [Called (HandleDefeat (player self))]).

(** [PlayerRepository.update(self.player)] *)
Definition update_player : Run (t DB) unit :=
  self ← get;
  command (UpdatePlayer (player self)) (PlayerRepository_update (player self)).

Definition on_victory : Run (t DB) unit :=
  write_back_hp;;
  '(loot, xp, leveled_up) ← call_handle_victory;
  update_player;;
  self ← get;
  let result_msg := "Victory! You gained " +:+ str xp +:+ " XP!" in
  result_msg ←
    match loot with
    | Some loot =>
        mret (result_msg +:+ nl +:+ "You obtained: " +:+ Item.name loot
              +:+ " (" +:+ Item.rarity loot +:+ ")")
    | None =>
        inventory_count ← query (GetInventoryCount (Player.id (player self)))
          (fun d => ItemRepository_get_inventory_count d (Player.id (player self)));
        max_inventory ← compute (CalculateInventorySpace (Player.level (player self)))
          (calculate_inventory_space (Player.level (player self)));
        if max_inventory <=? inventory_count
        then mret (result_msg +:+ nl +:+ "âš  Inventory full! Item could not be added.")
        else mret result_msg
    end;
  gui (information "Victory!" result_msg);;
  (if (leveled_up : bool)
   then gui (information "Level Up!"
               (level_up_msg (Player.name (player self)) (Player.level (player self))))
   else mret tt);;
  gui (emit "combat_ended" "victory" (VictoryData loot xp leveled_up));;
  gui accept.

Definition on_defeat : Run (t DB) unit :=
  write_back_hp;;
  penalties ← call_handle_defeat;
  update_player;;
  gui (warning "Defeat" ("Defeat! You lost " +:+ str (xp_lost penalties) +:+ " XP."));;
  gui (emit "combat_ended" "defeat" (DefeatData penalties));;
  gui reject.

Definition on_fled : Run (t DB) unit :=
  gui (emit "combat_ended" "fled" NoData);;
  gui reject.

(** The body of [if not continues:]. *)
Definition combat_ended (result : string) : Run (t DB) unit :=
  gui (setEnabled "attack_btn" false);;
  gui (setEnabled "defend_btn" false);;
  gui (setEnabled "flee_btn" false);;
  if String.eqb result "victory" then on_victory
  else if String.eqb result "defeat" then on_defeat
  else if String.eqb result "fled" then on_fled
  else mret tt.

Definition execute_action (action : string) : Run (t DB) unit :=
  '(message, continues, result) ← call_combat_turn action;
  setting ← query (GetSetting "combat_text_speed" "0")
                  (fun d => get_setting d "combat_text_speed" "0");
  match py_int setting with
  | None => raise "ValueError"
  | Some speed_delay =>
      (if 0 <? speed_delay
       then gui (append "log_text" message);;
            gui (singleShot_update_display speed_delay)
       else gui (append "log_text" message);;
            update_display);;
      if (continues : bool) then mret tt else combat_ended result
  end.

End Methods.
End CombatDialog.

(** ** The toolkit's integers

    The toolkit takes its integer arguments as C [int]s: a call whose
    argument does not fit raises [OverflowError] and is not made.  The methods
    above take every toolkit call as made; below stand the two methods of the
    combat dialog that pass an hp or a delay to the toolkit, with that
    limit. *)

Definition fits_c_int (v : Z) : bool := (-2147483648 <=? v) && (v <=? 2147483647).

Definition accepted (g : Gui) : bool :=
  match g with
  | setMaximum _ v | setValue _ v | setRowCount _ v | singleShot_update_display v =>
      fits_c_int v
  | _ => true
  end.

(** A toolkit call as the binding makes it. *)
Definition qt {St} (g : Gui) : Run St unit :=
  if accepted g then gui g else raise "OverflowError".

Module Checked.
Section Methods.
Context {DB : Type} `{!Backend DB}.

Definition update_display : Run (CombatDialog.t DB) unit :=
  self ← get;
  let enemy := CombatDialog.enemy self in
  let combat_player := CombatDialog.combat_player self in
  qt (setText "enemy_name_label"
        (CombatDialog.name_text (Enemy.name enemy) (Enemy.level enemy)));;
  qt (setMaximum "enemy_hp_bar" (Z.max (Enemy.hp enemy) 1));;
  qt (setValue "enemy_hp_bar" (Z.max (Enemy.hp enemy) 0));;
  qt (setText "enemy_stats_label"
        (CombatDialog.stats_text (Enemy.hp enemy) (Enemy.attack enemy) (Enemy.defense enemy)));;
  qt (setText "player_name_label"
        (CombatDialog.name_text (Player.name combat_player) (Player.level combat_player)));;
  qt (setMaximum "player_hp_bar" (Z.max (Player.hp combat_player) 1));;
  qt (setValue "player_hp_bar" (Z.max (Player.hp combat_player) 0));;
  qt (setText "player_stats_label"
        (CombatDialog.stats_text (Player.hp combat_player) (Player.attack combat_player)
           (Player.defense combat_player))).

Definition execute_action (action : string) : Run (CombatDialog.t DB) unit :=
  '(message, continues, result) ← CombatDialog.call_combat_turn action;
  setting ← query (GetSetting "combat_text_speed" "0")
                  (fun d => get_setting d "combat_text_speed" "0");
  match py_int setting with
  | None => raise "ValueError"
  | Some speed_delay =>
      (if 0 <? speed_delay
       then qt (append "log_text" message);;
            qt (singleShot_update_display speed_delay)
       else qt (append "log_text" message);;
            update_display);;
      if (continues : bool) then mret tt else CombatDialog.combat_ended result
  end.

End Methods.
End Checked.

(** A [QSpinBox] as the toolkit keeps it: a range and a value held inside
    it; moving one end of the range past the other drags the other along. *)
Module QSpinBox.
Record t := mk { minimum : Z; maximum : Z; value : Z }.

Definition fresh : t := mk 0 99 0.

Definition bound (lo v hi : Z) : Z := Z.max lo (Z.min hi v).

Definition setRange (lo hi : Z) (b : t) : t :=
  let hi := if lo <? hi then hi else lo in
  mk lo hi (bound lo (value b) hi).

Definition setMinimum (m : Z) (b : t) : t :=
  setRange m (if m <? maximum b then maximum b else m) b.

Definition setMaximum (m : Z) (b : t) : t :=
  setRange (if minimum b <? m then minimum b else m) m b.

Definition setValue (v : Z) (b : t) : t :=
  mk (minimum b) (maximum b) (bound (minimum b) v (maximum b)).
End QSpinBox.

(** The spin box a Sell cell is left with after [setMinimum], [setMaximum]
    and [setValue] were given the cell's three numbers. *)
Definition spin_box_of (w : CellWidget) : option QSpinBox.t :=
  match w with
  | SellCell lo hi v _ =>
      Some (QSpinBox.setValue v (QSpinBox.setMaximum hi (QSpinBox.setMinimum lo QSpinBox.fresh)))
  | _ => None
  end.

(** ** The rules behind the end of a combat *)






(** ** An in-memory backend

    A small stand-in for the repositories and the rules module, so that the
    widget methods can be run on concrete inputs. *)

Module Mem.

Record DB := mk {
  inventory : list InvEntry;
  saved : list Player.t;
  settings : list (string * string)
}.

Definition lookup_setting (d : DB) (key default : string) : string :=
  match List.find (fun kv => String.eqb kv.1 key) (settings d) with
  | Some kv => kv.2
  | None => default
  end.

Definition find_item (d : DB) (item_id : Z) : option Item.t :=
  match List.find (fun e : InvEntry => Item.id e.1.1 =? item_id) (inventory d) with
  | Some e => Some e.1.1
  | None => None
  end.

Definition remove (item_id quantity : Z) (d : DB) : DB :=
  mk (omap (fun e : InvEntry =>
              if Item.id e.1.1 =? item_id
              then (if e.1.2 - quantity <=? 0 then None
                    else Some (e.1.1, e.1.2 - quantity, e.2))
              else Some e)
           (inventory d))
     (saved d) (settings d).

Definition set_equipped (flag : bool) (item_id : Z) (d : DB) : DB :=
  mk (map (fun e : InvEntry =>
             if Item.id e.1.1 =? item_id then (e.1.1, e.1.2, flag) else e)
          (inventory d))
     (saved d) (settings d).

Definition save (p : Player.t) (d : DB) : DB :=
  mk (inventory d) (p :: saved d) (settings d).

(** Level up once when the experience reaches [level * 100]. *)
Definition gain_xp (p : Player.t) (amount : Z) : Player.t * bool :=
  let xp := Player.xp p + amount in
  if Player.level p * 100 <=? xp
  then (Player.mk (Player.id p) (Player.name p) (Player.level p + 1)
          (xp - Player.level p * 100) (Player.hp p + 10) (Player.attack p + 2)
          (Player.defense p + 1) (Player.speed p + 1) (Player.luck p + 1)
          (Player.github_handle p), true)
  else (Player.mk (Player.id p) (Player.name p) (Player.level p) xp (Player.hp p)
          (Player.attack p) (Player.defense p) (Player.speed p) (Player.luck p)
          (Player.github_handle p), false).

Definition hit (hp attack defense : Z) : Z := hp - Z.max 1 (attack - defense).

(** Fleeing always succeeds; otherwise the player strikes first and the
    enemy strikes back if it survives. *)
Definition turn (p : Player.t) (e : Enemy.t) (action : string)
  : Player.t * Enemy.t * (string * bool * string) :=
  if String.eqb action "flee" then (p, e, ("You fled!", false, "fled"))
  else
    let e1 :=
      if String.eqb action "attack"
      then Enemy.mk (Enemy.name e) (Enemy.level e)
             (hit (Enemy.hp e) (Player.attack p) (Enemy.defense e))
             (Enemy.attack e) (Enemy.defense e)
      else e in
    if Enemy.hp e1 <=? 0 then (p, e1, ("The enemy falls.", false, "victory"))
    else
      let p1 := Player.set_hp (hit (Player.hp p) (Enemy.attack e1) (Player.defense p)) p in
      if Player.hp p1 <=? 0 then (p1, e1, ("You fall.", false, "defeat"))
      else (p1, e1, ("The fight goes on.", true, "")).

Definition victory (p : Player.t) (e : Enemy.t) (loot_quality : Z) (d : DB)
  : Player.t * DB * (option Item.t * Z * bool) :=
  let xp := 10 * Enemy.level e in
  let '(p1, leveled_up) := gain_xp p xp in
  (p1, d, (None, xp, leveled_up)).

Definition defeat (p : Player.t) (d : DB) : Player.t * DB * Penalties :=
  let lost := Z.min (Player.xp p) 10 in
  (Player.mk (Player.id p) (Player.name p) (Player.level p) (Player.xp p - lost)
     (Player.hp p) (Player.attack p) (Player.defense p) (Player.speed p) (Player.luck p)
     (Player.github_handle p),
   d, mkPenalties lost).

#[global] Instance backend : Backend DB := {
  ItemRepository_get_by_id := find_item;
  ItemRepository_get_player_inventory := fun d _ => inventory d;
  ItemRepository_get_inventory_count := fun d _ => Z.of_nat (length (inventory d));
  ItemRepository_remove_from_inventory := fun _ => remove;
  ItemRepository_equip_item := fun _ => set_equipped true;
  ItemRepository_unequip_item := fun _ => set_equipped false;
  PlayerRepository_update := save;
  RepoWorldRepository_get_all := fun _ => [];
  QuestRepository_get_by_world_id := fun _ _ => [];
  get_setting := lookup_setting;
  award_xp := gain_xp;
  combat_turn := turn;
  handle_victory := victory;
  handle_defeat := defeat;
  calculate_inventory_space := fun level => 10 + 2 * level
}.

Definition hero : Player.t := Player.mk 1 "hero" 1 0 100 10 5 5 5 None.
Definition slime : Enemy.t := Enemy.mk "slime" 1 8 6 1.
Definition ogre : Enemy.t := Enemy.mk "ogre" 9 500 200 50.

Definition sword : Item.t := Item.mk 7 "sword" "rare" [("attack", 4); ("mana", 9)].
Definition shield : Item.t := Item.mk 8 "shield" "mythic" [("defense", 3); ("hp", 20)].
Definition ring : Item.t := Item.mk 9 "ring" "epic" [("luck", 2)].

Definition bag : list InvEntry := [(sword, 1, true); (shield, 3, true); (ring, 2, false)].

Definition store : DB := mk bag [] [].
Definition slow_store : DB := mk bag [] [("combat_text_speed", "250")].

Definition state : GameState DB := mkGameState store (Some hero).
Definition no_player : GameState DB := mkGameState store None.

(** The dialogs opened for the hero against the slime and against the ogre. *)
Definition slime_fight : CombatDialog.t DB :=
  state_of (CombatDialog.init hero slime 1 store).
Definition slow_slime_fight : CombatDialog.t DB :=
  state_of (CombatDialog.init hero slime 1 slow_store).
Definition ogre_fight : CombatDialog.t DB :=
  state_of (CombatDialog.init hero ogre 1 store).

Definition endless_store : DB := mk bag [] [("combat_text_speed", "4294967296")].
Definition endless_slime_fight : CombatDialog.t DB :=
  state_of (CombatDialog.init hero slime 1 endless_store).
Definition garbled_store : DB := mk bag [] [("combat_text_speed", "fast")].
Definition garbled_slime_fight : CombatDialog.t DB :=
  state_of (CombatDialog.init hero slime 1 garbled_store).

End Mem.

(** ** [MapView]

    The map view reads worlds and enemies and emits navigation signals
    carrying a world id; its effects are kept in a trace of their own.
    [signal_emit] keeps the argument given to [emit]; the signals are declared
    [pyqtSignal(int)], so what a slot receives is that argument only when it
    is a C int. *)

Module MapView.

(** A [RepoWorld] of [data.models], as far as the view reads it. *)
Record RepoWorld := mkRepoWorld {
  id : Z;
  full_name : string;
  stars : Z;
  forks : Z;
  watchers : Z;
  health_state : option string;
  activity_score : Z;
  main_enemy_id : option Z
}.

Inductive Effect :=
| RepoWorldRepository_get_all
| RepoWorldRepository_get_by_id (world_id : Z)
| EnemyRepository_get_by_id (enemy_id : Z)
| worlds_list_clear
| worlds_list_addItem (text : string) (user_role : Z)
| details_label_setText (text : string)
| button_setEnabled (button : string) (enabled : bool)
| signal_emit (signal : string) (world_id : Z).

(** The two repositories the view reads. *)
Class Repositories (DB : Type) := {
  get_all : DB -> list RepoWorld;
  get_world : DB -> Z -> option RepoWorld;
  get_enemy : DB -> Z -> option Enemy.t
}.

(** [self.current_world_id]; [None] until a world is selected. *)
Record t := mk { current_world_id : option Z }.

Section Methods.
Context {DB : Type} `{!Repositories DB}.

(** [main_enemy = None; if world.main_enemy_id: main_enemy =
    EnemyRepository.get_by_id(world.main_enemy_id)] *)
Definition main_enemy_of (d : DB) (world : RepoWorld) : option Enemy.t * list Effect :=
  match main_enemy_id world with
  | Some enemy_id =>
      if enemy_id =? 0 then (None, [])
      else (get_enemy d enemy_id, [EnemyRepository_get_by_id enemy_id])
  | None => (None, [])
  end.

(** The text of one list item. *)
Definition item_text (world : RepoWorld) (main_enemy : option Enemy.t) : string :=
  let enemy_level := match main_enemy with Some e => Enemy.level e | None => 0 end in
  let enemy_name := match main_enemy with Some e => Enemy.name e | None => "Unknown" end in
  full_name world +:+ nl +:+
  "⭐ " +:+ str (stars world) +:+ " | 🍴 " +:+ str (forks world) +:+ " | 👁 "
  +:+ str (watchers world) +:+ nl +:+
  "Boss: " +:+ enemy_name +:+ " (Lv." +:+ str enemy_level +:+ ")".

(** The body of [for world in worlds]. *)
Definition list_world (d : DB) (world : RepoWorld) : list Effect :=
  let '(main_enemy, looked_up) := main_enemy_of d world in
  looked_up ++ [worlds_list_addItem (item_text world main_enemy) (id world)].

Definition refresh_worlds (d : DB) (self : t) : t * list Effect :=
  (self,
   worlds_list_clear :: RepoWorldRepository_get_all
     :: concat (map (list_world d) (get_all d))).

(** [world.health_state or 'Unknown'] *)
Definition health_text (world : RepoWorld) : string :=
  match health_state world with
  | Some s => if String.eqb s "" then "Unknown" else s
  | None => "Unknown"
  end.

Definition details_text (world : RepoWorld) (main_enemy : option Enemy.t) : string :=
  "<b>" +:+ full_name world +:+ "</b><br><br>" +:+
  "<b>Stats:</b><br>" +:+
  "Stars: " +:+ str (stars world) +:+ "<br>" +:+
  "Forks: " +:+ str (forks world) +:+ "<br>" +:+
  "Watchers: " +:+ str (watchers world) +:+ "<br>" +:+
  "Health State: " +:+ health_text world +:+ "<br>" +:+
  "Activity Score: " +:+ str (activity_score world) +:+ "<br><br>" +:+
  match main_enemy with
  | Some e =>
      "<b>Main Enemy:</b><br>" +:+
      "Name: " +:+ Enemy.name e +:+ "<br>" +:+
      "Level: " +:+ str (Enemy.level e) +:+ "<br>" +:+
      "HP: " +:+ str (Enemy.hp e) +:+ "<br>" +:+
      "Attack: " +:+ str (Enemy.attack e) +:+ "<br>" +:+
      "Defense: " +:+ str (Enemy.defense e) +:+ "<br>"
  | None => ""
  end.

(** [on_world_selected(item)], where [world_id] is the item's user data. *)
Definition on_world_selected (world_id : Z) (d : DB) (self : t) : t * list Effect :=
  let self := mk (Some world_id) in
  match get_world d world_id with
  | None => (self, [RepoWorldRepository_get_by_id world_id])
  | Some world =>
      let '(main_enemy, looked_up) := main_enemy_of d world in
      (self,
       RepoWorldRepository_get_by_id world_id :: looked_up
       ++ [ details_label_setText (details_text world main_enemy);
            button_setEnabled "enter_btn" true;
            button_setEnabled "quest_btn" true;
            button_setEnabled "refresh_btn" true ])
  end.

(** [if self.current_world_id: signal.emit(self.current_world_id)] *)
Definition emit_current (signal : string) (self : t) : t * list Effect :=
  match current_world_id self with
  | Some world_id =>
      if world_id =? 0 then (self, []) else (self, [signal_emit signal world_id])
  | None => (self, [])
  end.

Definition on_enter_dungeon (self : t) : t * list Effect :=
  emit_current "enter_dungeon" self.
Definition on_open_quest_board (self : t) : t * list Effect :=
  emit_current "open_quest_board" self.
Definition on_refresh_world (self : t) : t * list Effect :=
  emit_current "refresh_world" self.

(** [init_ui] leaves the three buttons disabled and no world selected;
    [__init__] then lists the worlds. *)
Definition init (d : DB) : t * list Effect :=
  let '(self, listed) := refresh_worlds d (mk None) in
  (self,
   [ button_setEnabled "enter_btn" false;
     button_setEnabled "quest_btn" false;
     button_setEnabled "refresh_btn" false ] ++ listed).

End Methods.

(** The signals emitted, and the buttons switched, in a trace. *)
Definition emitted (t : list Effect) : list (string * Z) :=
  omap (fun e => match e with signal_emit s w => Some (s, w) | _ => None end) t.

Definition switched (t : list Effect) : list (string * bool) :=
  omap (fun e => match e with button_setEnabled b on => Some (b, on) | _ => None end) t.

Definition listed (t : list Effect) : list (string * Z) :=
  omap (fun e => match e with worlds_list_addItem text w => Some (text, w) | _ => None end) t.

Definition enemy_lookups (t : list Effect) : list Z :=
  omap (fun e => match e with EnemyRepository_get_by_id n => Some n | _ => None end) t.

Definition detailed (t : list Effect) : list string :=
  omap (fun e => match e with details_label_setText text => Some text | _ => None end) t.

(** The main enemy a world is shown with: none when the world names none
    (or names 0), or when the id resolves to no enemy. *)
Definition shown_enemy {DB} `{!Repositories DB} (d : DB) (world : RepoWorld)
  : option Enemy.t :=
  match main_enemy_id world with
  | Some enemy_id => if enemy_id =? 0 then None else get_enemy d enemy_id
  | None => None
  end.

(** The enemy ids a list of worlds makes the view look up. *)
Definition named_enemies (ws : list RepoWorld) : list Z :=
  omap (fun w => match main_enemy_id w with
                 | Some enemy_id => if enemy_id =? 0 then None else Some enemy_id
                 | None => None
                 end) ws.

(** A small world table for concrete runs. *)
Record Atlas := mkAtlas { worlds : list RepoWorld; enemies : list (Z * Enemy.t) }.

#[global] Instance atlas_repositories : Repositories Atlas := {
  get_all := worlds;
  get_world := fun a world_id => List.find (fun w => id w =? world_id) (worlds a);
  get_enemy := fun a enemy_id =>
    match List.find (fun ie : Z * Enemy.t => ie.1 =? enemy_id) (enemies a) with
    | Some ie => Some ie.2
    | None => None
    end
}.

Definition rocq : RepoWorld :=
  mkRepoWorld 1 "rocq-prover/rocq" 5000 700 120 (Some "healthy") 80 (Some 3).
Definition attic : RepoWorld := mkRepoWorld 2 "old/attic" 2 0 1 None 0 None.
Definition limbo : RepoWorld := mkRepoWorld 0 "lost/limbo" 9 9 9 (Some "") 1 (Some 0).
Definition atlas : Atlas :=
  mkAtlas [rocq; attic; limbo] [(3, Enemy.mk "Universe Inconsistency" 12 300 40 20)].

End MapView.

(** ** Reading a trace *)

Definition calls (t : Trace) : list Call :=
  omap (fun e => match e with Called c => Some c | Ui _ => None end) t.

Definition guis (t : Trace) : list Gui :=
  omap (fun e => match e with Ui g => Some g | Called _ => None end) t.

(** The [(player, amount)] arguments of the [award_xp] calls. *)
Definition awarded (t : Trace) : list (Player.t * Z) :=
  omap (fun e => match e with Called (AwardXp p n) => Some (p, n) | _ => None end) t.

(** The records passed to [PlayerRepository.update]. *)
Definition updated (t : Trace) : list Player.t :=
  omap (fun e => match e with Called (UpdatePlayer p) => Some p | _ => None end) t.

(** The records handed to [handle_victory] or [handle_defeat]. *)
Definition handed_over (t : Trace) : list Player.t :=
  omap (fun e =>
          match e with
          | Called (HandleVictory p _ _) => Some p
          | Called (HandleDefeat p) => Some p
          | _ => None
          end) t.

(** The texts of the [QMessageBox.information] boxes with a given title. *)
Definition informed (title : string) (t : Trace) : list string :=
  omap (fun e =>
          match e with
          | Ui (information title' text) => if String.eqb title' title then Some text else None
          | _ => None
          end) t.

(** The texts set on a label, in order. *)
Definition texts_of (widget : string) (t : Trace) : list string :=
  omap (fun e =>
          match e with
          | Ui (setText w text) => if String.eqb w widget then Some text else None
          | _ => None
          end) t.

(** The values and the maxima given to a progress bar, in order. *)
Definition values_of (widget : string) (t : Trace) : list Z :=
  omap (fun e =>
          match e with
          | Ui (setValue w v) => if String.eqb w widget then Some v else None
          | _ => None
          end) t.

Definition maxima_of (widget : string) (t : Trace) : list Z :=
  omap (fun e =>
          match e with
          | Ui (setMaximum w v) => if String.eqb w widget then Some v else None
          | _ => None
          end) t.

(** The delays of the single-shot timers started. *)
Definition timers (t : Trace) : list Z :=
  omap (fun e => match e with Ui (singleShot_update_display d) => Some d | _ => None end) t.

(** Calls into [game.logic] or [data.repositories]; [get_setting] belongs to
    [data.database]. *)
Definition into_logic_or_repositories (c : Call) : bool :=
  match c with
  | GetSetting _ _ => false
  | _ => true
  end.

(** Toolkit calls that change what a widget shows. *)
Definition renders (g : Gui) : bool :=
  match g with
  | setText _ _ | setMaximum _ _ | setValue _ _ | setRowCount _ _ | insertRow _ _
  | setItem _ _ _ _ | setCellWidget _ _ _ _ | append _ _ => true
  | _ => false
  end.

(** The part of a trace that precedes the first rendering call. *)
Fixpoint before_render (t : Trace) : Trace :=
  match t with
  | [] => []
  | Ui g :: rest => if renders g then [] else Ui g :: before_render rest
  | e :: rest => e :: before_render rest
  end.

Definition engine_calls (t : Trace) : list Call :=
  List.filter into_logic_or_repositories (calls t).

(** Events of filling a table: rows, cells and cell widgets. *)
Definition fills_table (e : Event) : bool :=
  match e with
  | Ui (insertRow _ _) | Ui (setItem _ _ _ _) | Ui (setCellWidget _ _ _ _) => true
  | _ => false
  end.

(** Events of reading the quests of a world. *)
Definition reads_quests (e : Event) : bool :=
  match e with
  | Called (GetQuestsByWorldId _) => true
  | _ => false
  end.

(** What is emitted once a combat is over: the buttons are disabled, the
    outcome is applied and stored, the player is told, the dialog closes. *)
Definition closes_combat (e : Event) : bool :=
  match e with
  | Called (HandleVictory _ _ _) | Called (HandleDefeat _) | Called (UpdatePlayer _)
  | Called (GetInventoryCount _) | Called (CalculateInventorySpace _) => true
  | Ui (setEnabled _ _) | Ui (information _ _) | Ui (warning _ _) | Ui (emit _ _ _)
  | Ui accept | Ui reject => true
  | _ => false
  end.

(** The toolkit calls of [CombatDialog.update_display] for an enemy and a
    combat player. *)
Definition display_events (enemy : Enemy.t) (combat_player : Player.t) : Trace :=
  [ Ui (setText "enemy_name_label"
          (CombatDialog.name_text (Enemy.name enemy) (Enemy.level enemy)));
    Ui (setMaximum "enemy_hp_bar" (Z.max (Enemy.hp enemy) 1));
    Ui (setValue "enemy_hp_bar" (Z.max (Enemy.hp enemy) 0));
    Ui (setText "enemy_stats_label"
          (CombatDialog.stats_text (Enemy.hp enemy) (Enemy.attack enemy)
             (Enemy.defense enemy)));
    Ui (setText "player_name_label"
          (CombatDialog.name_text (Player.name combat_player) (Player.level combat_player)));
    Ui (setMaximum "player_hp_bar" (Z.max (Player.hp combat_player) 1));
    Ui (setValue "player_hp_bar" (Z.max (Player.hp combat_player) 0));
    Ui (setText "player_stats_label"
          (CombatDialog.stats_text (Player.hp combat_player) (Player.attack combat_player)
             (Player.defense combat_player))) ].

(** The record the dialog hands to the rules module once the combat is decided. *)
Definition written_back {DB} (self : CombatDialog.t DB) : Player.t :=
  Player.set_hp
    (Z.max 1 (Player.hp (CombatDialog.combat_player self)
              - getitem (CombatDialog.equipped_bonuses self) "hp"))
    (CombatDialog.player self).

(** The outcome of [combat_turn] on the dialog's combat player and enemy:
    the dialog after the turn, and the three values returned. *)
Definition after_turn {DB} `{!Backend DB} (self : CombatDialog.t DB) (action : string)
  : CombatDialog.t DB :=
  let r := combat_turn (CombatDialog.combat_player self) (CombatDialog.enemy self) action in
  CombatDialog.mk (CombatDialog.player self) r.1.2 (CombatDialog.loot_quality self)
    (CombatDialog.equipped_bonuses self) r.1.1 (CombatDialog.database self).

Definition turn_message {DB} `{!Backend DB} (self : CombatDialog.t DB) (action : string)
  : string :=
  (combat_turn (CombatDialog.combat_player self) (CombatDialog.enemy self) action).2.1.1.

Definition turn_continues {DB} `{!Backend DB} (self : CombatDialog.t DB) (action : string)
  : bool :=
  (combat_turn (CombatDialog.combat_player self) (CombatDialog.enemy self) action).2.1.2.

Definition turn_result {DB} `{!Backend DB} (self : CombatDialog.t DB) (action : string)
  : string :=
  (combat_turn (CombatDialog.combat_player self) (CombatDialog.enemy self) action).2.2.

(** [db.get_setting("combat_text_speed", "0")] *)
Definition speed_setting {DB} `{!Backend DB} (self : CombatDialog.t DB) : string :=
  get_setting (CombatDialog.database self) "combat_text_speed" "0".

(** The two calls that open [execute_action]. *)
Definition opening {DB} (self : CombatDialog.t DB) (action : string) : Trace :=
  [ Called (CombatTurn (CombatDialog.combat_player self) (CombatDialog.enemy self) action);
    Called (GetSetting "combat_text_speed" "0") ].

(** The record stored when a dialog closes a combat that ended with
    [result]: what [handle_victory] or [handle_defeat] made of the record
    written back. *)
Definition stored_after {DB} `{!Backend DB} (self : CombatDialog.t DB) (result : string)
  : Player.t :=
  if String.eqb result "victory"
  then (handle_victory (written_back self) (CombatDialog.enemy self)
          (CombatDialog.loot_quality self) (CombatDialog.database self)).1.1
  else (handle_defeat (written_back self) (CombatDialog.database self)).1.1.

(** How a turn is revealed: the message goes to the log, the display is
    updated at once or left to a timer. *)
Definition reveal (speed_delay : Z) (message : string) (enemy : Enemy.t)
    (combat_player : Player.t) : Trace :=
  if 0 <? speed_delay
  then [Ui (append "log_text" message); Ui (singleShot_update_display speed_delay)]
  else Ui (append "log_text" message) :: display_events enemy combat_player.

(** Calls that only read. *)
Definition reads (c : Call) : bool :=
  match c with
  | GetById _ | GetPlayerInventory _ | GetInventoryCount _ | GetAllWorlds
  | GetQuestsByWorldId _ | CalculateInventorySpace _ | GetSetting _ _ => true
  | _ => false
  end.

(** An event that changes neither the repositories, nor the player, nor the
    display. *)
Definition harmless (e : Event) : bool :=
  match e with
  | Called c => reads c
  | Ui _ => false
  end.

(** A method left everything as it was: it returned, the state is the one
    it started from, and it emitted nothing but reads. *)
Definition untouched {St} (s : St) (o : Res unit * St * Trace) : Prop :=
  result_of o = Ok tt /\ state_of o = s /\ forallb harmless (trace_of o) = true.

(** The rarity table as the specification gives it. *)
Definition rarity_table (rarity : string) : option Z :=
  if String.eqb rarity "common" then Some 5
  else if String.eqb rarity "uncommon" then Some 10
  else if String.eqb rarity "rare" then Some 25
  else if String.eqb rarity "epic" then Some 50
  else if String.eqb rarity "legendary" then Some 100
  else None.

(** An item without the bonuses whose key is not one of the five stats. *)
Definition drop_unknown (e : InvEntry) : InvEntry :=
  (Item.mk (Item.id e.1.1) (Item.name e.1.1) (Item.rarity e.1.1)
     (List.filter (fun sb : string * Z => bool_decide (sb.1 ∈ known_stats))
        (Item.stat_bonuses e.1.1)),
   e.1.2, e.2).

(** A click answered by exactly one call into [game.logic] or
    [data.repositories] before anything is rendered again. *)
Definition one_call_before_render (t : Trace) : Prop :=
  length (engine_calls (before_render t)) = 1%nat.

(** Every record stored by a run of [execute_action] has the combat
    player's hp minus the equipped hp bonus as its hp. *)
Definition stores_combat_hp_minus_bonus {DB} `{!Backend DB} (self : CombatDialog.t DB)
    (action : string) : Prop :=
  let o := CombatDialog.execute_action action self in
  Forall (fun p => Player.hp p =
                   Player.hp (CombatDialog.combat_player (state_of o))
                   - getitem (CombatDialog.equipped_bonuses (state_of o)) "hp")
         (updated (trace_of o)).

(** ** Reading more of a trace *)

(** The [accept] and [reject] calls, in order. *)
Definition closings (t : Trace) : list Gui :=
  omap (fun e => match e with
                 | Ui accept => Some accept
                 | Ui reject => Some reject
                 | _ => None
                 end) t.

(** The [combat_ended] signals: result and data. *)
Definition signals (t : Trace) : list (string * Payload) :=
  omap (fun e => match e with
                 | Ui (emit "combat_ended" result data) => Some (result, data)
                 | _ => None
                 end) t.

(** The message boxes shown, of either kind. *)
Definition boxes (t : Trace) : list Gui :=
  omap (fun e => match e with
                 | Ui (information title text) => Some (information title text)
                 | Ui (warning title text) => Some (warning title text)
                 | _ => None
                 end) t.

(** The widgets switched off. *)
Definition disabled (t : Trace) : list string :=
  omap (fun e => match e with Ui (setEnabled w false) => Some w | _ => None end) t.

(** The cell widgets placed in a table, with their rows. *)
Definition cell_widgets (t : Trace) : list (nat * CellWidget) :=
  omap (fun e => match e with Ui (setCellWidget _ row _ w) => Some (row, w) | _ => None end) t.

(** The first-column texts of a table, with their rows. *)
Definition row_names (t : Trace) : list (nat * string) :=
  omap (fun e => match e with Ui (setItem _ row 0 text) => Some (row, text) | _ => None end) t.

(** The items of the entries that are equipped. *)
Definition equipped_items (inventory : list InvEntry) : list Item.t :=
  map (fun e : InvEntry => e.1.1) (filter (fun e : InvEntry => e.2 = true) inventory).

(** The line added to the victory message when the loot did not fit. *)
Definition inventory_full_warning : string := "âš  Inventory full! Item could not be added.".

(** The text of the victory box for what [handle_victory] returned and the
    inventory figures read afterwards. *)
Definition victory_message (loot : option Item.t) (xp inventory_count max_inventory : Z)
  : string :=
  let result_msg := "Victory! You gained " +:+ str xp +:+ " XP!" in
  match loot with
  | Some loot =>
      result_msg +:+ nl +:+ "You obtained: " +:+ Item.name loot +:+ " (" +:+ Item.rarity loot
      +:+ ")"
  | None =>
      if max_inventory <=? inventory_count
      then result_msg +:+ nl +:+ inventory_full_warning
      else result_msg
  end.

(** The quests counted as completed over a list of worlds. *)
Definition completed_in {DB} `{!Backend DB} (d : DB) (worlds : list World.t) : Z :=
  foldr Z.add 0
    (map (fun w => Z.of_nat (length (filter (fun q => Quest.status q = "completed")
                                       (QuestRepository_get_by_world_id d (World.id w)))))
         worlds).


(** A turn defers the display by one timer of the delay parsed from the
    setting: what the specification says of every delay above 0. *)
Definition defers_display {DB} `{!Backend DB} (self : CombatDialog.t DB) (action : string)
  : Prop :=
  forall speed_delay,
    py_int (speed_setting self) = Some speed_delay -> 0 < speed_delay ->
    timers (trace_of (Checked.execute_action action self)) = [speed_delay].

(** * Properties *)

(** ** The methods on concrete inputs *)

Example py_int_default : py_int "0" = Some 0.
Proof. reflexivity. Qed.

Example py_int_padded : py_int " +1_250 " = Some 1250.
Proof. reflexivity. Qed.

Example py_int_negative : py_int "-40" = Some (-40).
Proof. reflexivity. Qed.

Example py_int_rejects :
  py_int "" = None /\ py_int "fast" = None /\ py_int "1__0" = None /\ py_int "12_" = None.
Proof. repeat split. Qed.

Example py_int_other_scripts :
  py_int "٣" = Some 3 /\ py_int "５" = Some 5 /\ py_int "٣_٤" = Some 34
  /\ py_int "　5 " = Some 5.
Proof. repeat split. Qed.

Example py_int_separators :
  py_int (String (Ascii.ascii_of_nat 28) "7") = None
  /\ py_int (String (Ascii.ascii_of_nat 11) "7") = Some 7
  /\ py_int (String (Ascii.ascii_of_nat 127) "7") = None.
Proof. repeat split. Qed.

Example bag_bonuses :
  map (fun stat => (stat, sum_equipped_bonuses Mem.bag !! stat))
      ["hp"; "attack"; "defense"; "speed"; "luck"; "mana"] =
  [("hp", Some 20); ("attack", Some 4); ("defense", Some 3); ("speed", Some 0);
   ("luck", Some 0); ("mana", None)].
Proof. vm_compute. reflexivity. Qed.

Example sell_two_swords :
  trace_of (RecyclerDialog.sell_item 7 2 Mem.state) =
  [ Called (GetById 7);
    Called (RemoveFromInventory 1 7 2);
    Called (AwardXp Mem.hero 50);
    Called (UpdatePlayer (Player.mk 1 "hero" 1 50 100 10 5 5 5 None));
    Ui (setRowCount "inventory_table" 0);
    Called (GetPlayerInventory 1);
    Ui (insertRow "inventory_table" 0);
    Ui (setItem "inventory_table" 0 0 "shield [EQUIPPED]");
    Ui (setItem "inventory_table" 0 1 "mythic");
    Ui (setItem "inventory_table" 0 2 "defense: +3, hp: +20");
    Ui (setItem "inventory_table" 0 3 "3");
    Ui (setCellWidget "inventory_table" 0 4 (SellCell 1 3 1 8));
    Ui (insertRow "inventory_table" 1);
    Ui (setItem "inventory_table" 1 0 "ring");
    Ui (setItem "inventory_table" 1 1 "epic");
    Ui (setItem "inventory_table" 1 2 "luck: +2");
    Ui (setItem "inventory_table" 1 3 "2");
    Ui (setCellWidget "inventory_table" 1 4 (SellCell 1 2 1 9));
    Ui (information "Item Sold" "Sold 2x sword for 50 XP!") ].
Proof. vm_compute. reflexivity. Qed.

Example slime_falls :
  trace_of (CombatDialog.execute_action "attack" Mem.slime_fight) =
  [ Called (CombatTurn (Player.mk 1 "hero" 1 0 120 14 8 5 5 None) Mem.slime "attack");
    Called (GetSetting "combat_text_speed" "0");
    Ui (append "log_text" "The enemy falls.");
    Ui (setText "enemy_name_label" "slime (Level 1)");
    Ui (setMaximum "enemy_hp_bar" 1);
    Ui (setValue "enemy_hp_bar" 0);
    Ui (setText "enemy_stats_label" "HP: 0 | Attack: 6 | Defense: 1");
    Ui (setText "player_name_label" "hero (Level 1)");
    Ui (setMaximum "player_hp_bar" 120);
    Ui (setValue "player_hp_bar" 120);
    Ui (setText "player_stats_label" "HP: 120 | Attack: 14 | Defense: 8");
    Ui (setEnabled "attack_btn" false);
    Ui (setEnabled "defend_btn" false);
    Ui (setEnabled "flee_btn" false);
    Called (HandleVictory Mem.hero (Enemy.mk "slime" 1 (-5) 6 1) 1);
    Called (UpdatePlayer (Player.mk 1 "hero" 1 10 100 10 5 5 5 None));
    Called (GetInventoryCount 1);
    Called (CalculateInventorySpace 1);
    Ui (information "Victory!" "Victory! You gained 10 XP!");
    Ui (emit "combat_ended" "victory" (VictoryData None 10 false));
    Ui accept ].
Proof. vm_compute. reflexivity. Qed.

(** ** The bonus aggregation *)

Section Aggregation.

Implicit Types (acc : gmap string Z) (bonuses : list (string * Z)) (stat : string).

Lemma pairs_bonus_cons stat k v bonuses :
  pairs_bonus stat ((k, v) :: bonuses) =
  (if decide (k = stat) then v else 0) + pairs_bonus stat bonuses.
Proof.
  unfold pairs_bonus. rewrite filter_cons. simpl.
  destruct (decide (k = stat)); simpl; lia.
Qed.

Lemma add_bonus_lookup acc k v stat :
  add_bonus acc (k, v) !! stat =
  (fun old => old + (if decide (k = stat) then v else 0)) <$> acc !! stat.
Proof.
  unfold add_bonus. simpl.
  destruct (decide (k = stat)) as [->|Hne].
  - destruct (acc !! stat) as [old|] eqn:E.
    + rewrite lookup_insert_eq. reflexivity.
    + rewrite E. reflexivity.
  - destruct (acc !! k) as [old|].
    + rewrite lookup_insert_ne by assumption.
      destruct (acc !! stat); simpl; f_equal; lia.
    + destruct (acc !! stat); simpl; f_equal; lia.
Qed.

Lemma foldl_add_bonus_lookup bonuses acc stat :
  foldl add_bonus acc bonuses !! stat =
  (fun old => old + pairs_bonus stat bonuses) <$> acc !! stat.
Proof.
  revert acc. induction bonuses as [|[k v] rest IH]; intros acc.
  - simpl. destruct (acc !! stat); simpl; f_equal. unfold pairs_bonus. simpl. lia.
  - simpl. rewrite IH, add_bonus_lookup, pairs_bonus_cons.
    destruct (acc !! stat); simpl; f_equal. lia.
Qed.

Lemma equipped_total_cons stat item quantity (equipped : bool) inventory :
  equipped_total stat ((item, quantity, equipped) :: inventory) =
  (if equipped then item_bonus stat item else 0) + equipped_total stat inventory.
Proof.
  unfold equipped_total. rewrite filter_cons. simpl.
  destruct equipped; simpl.
  - destruct (decide (true = true)); [reflexivity | congruence].
  - destruct (decide (false = true)); [congruence | lia].
Qed.

Lemma foldl_add_entry_lookup inventory acc stat :
  foldl add_entry acc inventory !! stat =
  (fun old => old + equipped_total stat inventory) <$> acc !! stat.
Proof.
  revert acc. induction inventory as [|[[item quantity] equipped] rest IH]; intros acc.
  - simpl. destruct (acc !! stat); simpl; f_equal. unfold equipped_total. simpl. lia.
  - simpl foldl. rewrite IH, equipped_total_cons. destruct equipped; simpl.
    + rewrite foldl_add_bonus_lookup. unfold item_bonus.
      destruct (acc !! stat); simpl; f_equal. lia.
    + destruct (acc !! stat); simpl; f_equal.
Qed.

(** The aggregated dict holds exactly the five stats, each with the sum of
    the equipped items' bonuses for it. *)
Lemma sum_equipped_bonuses_lookup inventory stat :
  sum_equipped_bonuses inventory !! stat =
  if bool_decide (stat ∈ known_stats) then Some (equipped_total stat inventory) else None.
Proof.
  unfold sum_equipped_bonuses. rewrite foldl_add_entry_lookup.
  unfold zero_bonuses, known_stats.
  destruct (decide (stat = "hp")) as [->|?]; [reflexivity|].
  destruct (decide (stat = "attack")) as [->|?]; [reflexivity|].
  destruct (decide (stat = "defense")) as [->|?]; [reflexivity|].
  destruct (decide (stat = "speed")) as [->|?]; [reflexivity|].
  destruct (decide (stat = "luck")) as [->|?]; [reflexivity|].
  rewrite !lookup_insert_ne by congruence.
  rewrite ?lookup_singleton_ne, ?lookup_empty by congruence.
  rewrite bool_decide_eq_false_2; [reflexivity|].
  rewrite !elem_of_cons, elem_of_nil. tauto.
Qed.

Lemma getitem_sum_equipped_bonuses inventory stat :
  stat ∈ known_stats ->
  getitem (sum_equipped_bonuses inventory) stat = equipped_total stat inventory.
Proof.
  intros Hin. unfold getitem. rewrite sum_equipped_bonuses_lookup.
  rewrite bool_decide_eq_true_2 by assumption. reflexivity.
Qed.

End Aggregation.

(** ** Loops *)

Section Loops.
Context {DB : Type} `{!Backend DB}.

Lemma for_each_keeps {St A} (P : Event -> bool) (body : nat -> A -> Run St unit) :
  (forall i x s, exists t, body i x s = (Ok tt, s, t) /\ forallb P t = true) ->
  forall l n s, exists t, for_each body n l s = (Ok tt, s, t) /\ forallb P t = true.
Proof.
  intros Hbody. induction l as [|x rest IH]; intros n s.
  - exists []. split; reflexivity.
  - destruct (Hbody n x s) as (t1 & E1 & P1). destruct (IH (S n) s) as (t2 & E2 & P2).
    exists (t1 ++ t2). split.
    + simpl. unfold bind. rewrite E1, E2. reflexivity.
    + rewrite forallb_app, P1, P2. reflexivity.
Qed.

Lemma recycler_rows (inventory : list InvEntry) (g : GameState DB) :
  exists t, for_each RecyclerDialog.inventory_row 0%nat inventory g = (Ok tt, g, t)
            /\ forallb fills_table t = true.
Proof.
  apply for_each_keeps. intros i [[item quantity] equipped] s.
  eexists. split; reflexivity.
Qed.

Lemma player_view_rows (inventory : list InvEntry) (g : GameState DB) :
  exists t, for_each PlayerView.inventory_row 0%nat inventory g = (Ok tt, g, t)
            /\ forallb fills_table t = true.
Proof.
  apply for_each_keeps. intros i [[item quantity] equipped] s.
  eexists. split; reflexivity.
Qed.

Lemma completed_quests_reads (worlds : list World.t) (g : GameState DB) :
  exists n t, PlayerView.completed_quests worlds g = (Ok n, g, t)
              /\ forallb reads_quests t = true.
Proof.
  induction worlds as [|w rest IH].
  - exists 0, []. split; reflexivity.
  - destruct IH as (n & t & E & P). eexists _, _. split.
    + simpl. unfold mbind, run_mbind, bind, query. simpl. rewrite E. simpl. reflexivity.
    + simpl. rewrite forallb_app, P. reflexivity.
Qed.

Lemma omap_none_on {A} (P : Event -> bool) (f : Event -> option A) (t : Trace) :
  (forall e, P e = true -> f e = None) -> forallb P t = true -> omap f t = [].
Proof.
  intros Hf. induction t as [|e rest IH]; intros Hall; [reflexivity|].
  simpl in Hall. apply andb_prop in Hall as [He Hrest].
  simpl. rewrite (Hf e He). apply IH, Hrest.
Qed.

End Loops.

(** ** What [sell_item] does, step by step *)

Section Recycler.
Context {DB : Type} `{!Backend DB}.

Ltac run_steps :=
  unfold mbind, run_mbind, mret, run_mret, bind, ret, get, gui, tell, query, command,
    compute, set_current_player; simpl.

Lemma refresh_inventory_run (g : GameState DB) (player : Player.t) :
  current_player g = Some player ->
  exists rows,
    forallb fills_table rows = true /\
    RecyclerDialog.refresh_inventory g =
    (Ok tt, g,
     Ui (setRowCount "inventory_table" 0)
       :: Called (GetPlayerInventory (Player.id player)) :: rows).
Proof.
  intros Hp.
  destruct (recycler_rows
              (ItemRepository_get_player_inventory (db g) (Player.id player)) g)
    as (rows & Erows & Hrows).
  exists rows. split; [exact Hrows|].
  unfold RecyclerDialog.refresh_inventory. run_steps. rewrite Hp. run_steps.
  rewrite Erows. destruct g; reflexivity.
Qed.

Lemma sell_item_run (g : GameState DB) (player : Player.t) (item : Item.t)
    (item_id quantity : Z) :
  current_player g = Some player ->
  ItemRepository_get_by_id (db g) item_id = Some item ->
  let xp := RecyclerDialog.xp_reward item quantity in
  let player' := (award_xp player xp).1 in
  let leveled_up := (award_xp player xp).2 in
  exists rows,
    forallb fills_table rows = true /\
    RecyclerDialog.sell_item item_id quantity g =
    (Ok tt,
     mkGameState
       (PlayerRepository_update player'
          (ItemRepository_remove_from_inventory (Player.id player) item_id quantity (db g)))
       (Some player'),
     [ Called (GetById item_id);
       Called (RemoveFromInventory (Player.id player) item_id quantity);
       Called (AwardXp player xp);
       Called (UpdatePlayer player');
       Ui (setRowCount "inventory_table" 0);
       Called (GetPlayerInventory (Player.id player')) ]
     ++ rows
     ++ Ui (information "Item Sold" (RecyclerDialog.sold_message quantity item xp))
     :: (if leveled_up
         then [Ui (information "Level Up!"
                     (RecyclerDialog.level_up_msg (Player.name player')
                        (Player.level player')))]
         else [])).
Proof.
  intros Hp Hitem xp player' leveled_up.
  set (g' := mkGameState
               (PlayerRepository_update player'
                  (ItemRepository_remove_from_inventory (Player.id player) item_id quantity
                     (db g)))
               (Some player')).
  destruct (refresh_inventory_run g' player' eq_refl) as (rows & Hrows & Erefresh).
  exists rows. split; [exact Hrows|].
  unfold RecyclerDialog.sell_item. run_steps. rewrite Hp. run_steps. rewrite Hitem.
  fold xp. subst player' leveled_up.
  destruct (award_xp player xp) as [p' lv]. simpl in *.
  fold g'. rewrite Erefresh.
  destruct lv; simpl; rewrite <- ?app_assoc; simpl; reflexivity.
Qed.

End Recycler.

(** ** What [refresh], [equip_item] and [unequip_item] do, step by step *)

Section Profile.
Context {DB : Type} `{!Backend DB}.

Ltac run_steps :=
  unfold mbind, run_mbind, mret, run_mret, bind, ret, get, gui, tell, query, command,
    compute; simpl.

Lemma refresh_run (g : GameState DB) (player : Player.t) :
  current_player g = Some player ->
  let inventory := ItemRepository_get_player_inventory (db g) (Player.id player) in
  let bonuses := sum_equipped_bonuses inventory in
  exists rows quests achievements,
    forallb fills_table rows = true /\
    forallb reads_quests quests = true /\
    PlayerView.refresh g =
    (Ok tt, g,
     [ Ui (setText "name_label" ("Name: " +:+ Player.name player));
       Ui (setText "level_label" ("Level: " +:+ str (Player.level player)));
       Ui (setText "xp_label"
             ("XP: " +:+ str (Player.xp player) +:+ " / "
              +:+ str (Player.level player * 100)));
       Ui (setMaximum "xp_bar" (Player.level player * 100));
       Ui (setValue "xp_bar" (Player.xp player));
       Called (GetPlayerInventory (Player.id player));
       Ui (setText "hp_label"
             (PlayerView.stat_text "HP" (Player.hp player) (getitem bonuses "hp")));
       Ui (setText "attack_label"
             (PlayerView.stat_text "Attack" (Player.attack player)
                (getitem bonuses "attack")));
       Ui (setText "defense_label"
             (PlayerView.stat_text "Defense" (Player.defense player)
                (getitem bonuses "defense")));
       Ui (setText "speed_label"
             (PlayerView.stat_text "Speed" (Player.speed player) (getitem bonuses "speed")));
       Ui (setText "luck_label"
             (PlayerView.stat_text "Luck" (Player.luck player) (getitem bonuses "luck")));
       Called (GetInventoryCount (Player.id player));
       Called (CalculateInventorySpace (Player.level player));
       Ui (setText "inventory_space_label"
             ("Inventory: "
              +:+ str (ItemRepository_get_inventory_count (db g) (Player.id player))
              +:+ "/" +:+ str (calculate_inventory_space (Player.level player))));
       Ui (setRowCount "inventory_table" 0) ]
     ++ rows
     ++ Called GetAllWorlds
     :: quests
     ++ [Ui (setText "achievements_label" achievements)]).
Proof.
  intros Hp inventory bonuses.
  destruct (player_view_rows inventory g) as (rows & Erows & Hrows).
  destruct (completed_quests_reads (RepoWorldRepository_get_all (db g)) g)
    as (n & quests & Equests & Hquests).
  exists rows, quests. eexists. split; [exact Hrows|]. split; [exact Hquests|].
  unfold PlayerView.refresh. run_steps. rewrite Hp. run_steps.
  fold inventory. rewrite Erows. simpl. rewrite Equests. simpl.
  reflexivity.
Qed.

Lemma equip_item_run (g : GameState DB) (player : Player.t) (item_id : Z) :
  current_player g = Some player ->
  exists shown,
    PlayerView.equip_item item_id g =
    (Ok tt,
     mkGameState (ItemRepository_equip_item (Player.id player) item_id (db g)) (Some player),
     Called (EquipItem (Player.id player) item_id)
       :: Ui (setText "name_label" ("Name: " +:+ Player.name player)) :: shown).
Proof.
  intros Hp.
  destruct (refresh_run
              (mkGameState (ItemRepository_equip_item (Player.id player) item_id (db g))
                 (Some player)) player eq_refl)
    as (rows & quests & achievements & _ & _ & E).
  eexists. unfold PlayerView.equip_item. run_steps. rewrite Hp. run_steps.
  rewrite ?Hp. simpl in E. rewrite E. reflexivity.
Qed.

Lemma unequip_item_run (g : GameState DB) (player : Player.t) (item_id : Z) :
  current_player g = Some player ->
  exists shown,
    PlayerView.unequip_item item_id g =
    (Ok tt,
     mkGameState (ItemRepository_unequip_item (Player.id player) item_id (db g))
       (Some player),
     Called (UnequipItem (Player.id player) item_id)
       :: Ui (setText "name_label" ("Name: " +:+ Player.name player)) :: shown).
Proof.
  intros Hp.
  destruct (refresh_run
              (mkGameState (ItemRepository_unequip_item (Player.id player) item_id (db g))
                 (Some player)) player eq_refl)
    as (rows & quests & achievements & _ & _ & E).
  eexists. unfold PlayerView.unequip_item. run_steps. rewrite Hp. run_steps.
  rewrite ?Hp. simpl in E. rewrite E. reflexivity.
Qed.

End Profile.

(** ** What [execute_action] does, step by step *)

Section Combat.
Context {DB : Type} `{!Backend DB}.

Ltac run_steps :=
  unfold mbind, run_mbind, mret, run_mret, bind, ret, raise, get, gui, tell, query, command,
    compute; simpl.

Lemma update_display_run (self : CombatDialog.t DB) :
  CombatDialog.update_display self =
  (Ok tt, self, display_events (CombatDialog.enemy self) (CombatDialog.combat_player self)).
Proof. reflexivity. Qed.

Lemma on_victory_run (self : CombatDialog.t DB) :
  let r := handle_victory (written_back self) (CombatDialog.enemy self)
             (CombatDialog.loot_quality self) (CombatDialog.database self) in
  exists rest,
    forallb closes_combat rest = true /\
    updated rest = [] /\ handed_over rest = [] /\
    CombatDialog.on_victory self =
    (Ok tt,
     CombatDialog.mk r.1.1 (CombatDialog.enemy self) (CombatDialog.loot_quality self)
       (CombatDialog.equipped_bonuses self) (CombatDialog.combat_player self)
       (PlayerRepository_update r.1.1 r.1.2),
     Called (HandleVictory (written_back self) (CombatDialog.enemy self)
               (CombatDialog.loot_quality self))
       :: Called (UpdatePlayer r.1.1) :: rest).
Proof.
  intros r. unfold CombatDialog.on_victory, CombatDialog.write_back_hp,
    CombatDialog.call_handle_victory, CombatDialog.update_player.
  run_steps. fold (written_back self). subst r.
  destruct (handle_victory (written_back self) (CombatDialog.enemy self)
              (CombatDialog.loot_quality self) (CombatDialog.database self))
    as [[p d] [[loot xp] leveled_up]].
  simpl. destruct loot as [loot|]; simpl.
  - destruct leveled_up; simpl; eexists;
      (split; [|split; [|split; [|reflexivity]]]; reflexivity).
  - destruct (calculate_inventory_space (Player.level p)
                <=? ItemRepository_get_inventory_count (PlayerRepository_update p d)
                      (Player.id p));
      destruct leveled_up; simpl; eexists;
      (split; [|split; [|split; [|reflexivity]]]; reflexivity).
Qed.

Lemma on_defeat_run (self : CombatDialog.t DB) :
  let r := handle_defeat (written_back self) (CombatDialog.database self) in
  exists rest,
    forallb closes_combat rest = true /\
    updated rest = [] /\ handed_over rest = [] /\
    CombatDialog.on_defeat self =
    (Ok tt,
     CombatDialog.mk r.1.1 (CombatDialog.enemy self) (CombatDialog.loot_quality self)
       (CombatDialog.equipped_bonuses self) (CombatDialog.combat_player self)
       (PlayerRepository_update r.1.1 r.1.2),
     Called (HandleDefeat (written_back self)) :: Called (UpdatePlayer r.1.1) :: rest).
Proof.
  intros r. unfold CombatDialog.on_defeat, CombatDialog.write_back_hp,
    CombatDialog.call_handle_defeat, CombatDialog.update_player.
  run_steps. fold (written_back self). subst r.
  destruct (handle_defeat (written_back self) (CombatDialog.database self)) as [[p d] pen].
  simpl. eexists; (split; [|split; [|split; [|reflexivity]]]; reflexivity).
Qed.

Lemma execute_action_raises (self : CombatDialog.t DB) (action : string) :
  py_int (speed_setting self) = None ->
  CombatDialog.execute_action action self =
  (Raised "ValueError", after_turn self action, opening self action).
Proof.
  intros Hparse. unfold CombatDialog.execute_action, CombatDialog.call_combat_turn.
  unfold after_turn, opening, speed_setting in *. run_steps.
  destruct (combat_turn (CombatDialog.combat_player self) (CombatDialog.enemy self) action)
    as [[cp e] [[message continues] result]].
  run_steps. rewrite Hparse. reflexivity.
Qed.

(** The record stored when a combat that ended with [result] is closed. *)
Lemma combat_ended_run (self : CombatDialog.t DB) (result : string) :
  exists ending self2,
    forallb closes_combat ending = true /\
    CombatDialog.combat_ended result self = (Ok tt, self2, ending) /\
    (if String.eqb result "victory" || String.eqb result "defeat"
     then updated ending = [stored_after self result]
          /\ handed_over ending = [written_back self]
     else updated ending = [] /\ handed_over ending = []).
Proof.
  destruct (on_victory_run self) as (vrest & Hv1 & Hv2 & Hv3 & Ev).
  destruct (on_defeat_run self) as (drest & Hd1 & Hd2 & Hd3 & Ed).
  unfold CombatDialog.combat_ended, stored_after. run_steps.
  destruct (String.eqb result "victory").
  - rewrite Ev. simpl. eexists _, _. split; [|split; [reflexivity|]]; simpl.
    + exact Hv1.
    + rewrite Hv2, Hv3. split; reflexivity.
  - destruct (String.eqb result "defeat").
    + rewrite Ed. simpl. eexists _, _. split; [|split; [reflexivity|]]; simpl.
      * exact Hd1.
      * rewrite Hd2, Hd3. split; reflexivity.
    + destruct (String.eqb result "fled"); simpl;
        eexists _, _; (split; [|split; [reflexivity|]]); simpl;
        first [reflexivity | split; reflexivity].
Qed.

Lemma execute_action_run (self : CombatDialog.t DB) (action : string) (speed_delay : Z) :
  py_int (speed_setting self) = Some speed_delay ->
  let self1 := after_turn self action in
  exists ending self2,
    forallb closes_combat ending = true /\
    CombatDialog.execute_action action self =
    (Ok tt, self2,
     opening self action
     ++ reveal speed_delay (turn_message self action) (CombatDialog.enemy self1)
          (CombatDialog.combat_player self1)
     ++ ending) /\
    (if turn_continues self action then ending = [] /\ self2 = self1
     else if String.eqb (turn_result self action) "victory"
             || String.eqb (turn_result self action) "defeat"
          then updated ending = [stored_after self1 (turn_result self action)]
               /\ handed_over ending = [written_back self1]
          else updated ending = [] /\ handed_over ending = []).
Proof.
  intros Hparse self1.
  destruct (combat_ended_run self1 (turn_result self action))
    as (ending & self2 & Hclose & Eend & Hend).
  unfold CombatDialog.execute_action, CombatDialog.call_combat_turn.
  unfold turn_message, turn_continues, turn_result, opening, speed_setting in *.
  revert Hend Eend. unfold self1, after_turn. clear self1.
  run_steps.
  destruct (combat_turn (CombatDialog.combat_player self) (CombatDialog.enemy self) action)
    as [[cp e] [[message continues] result]].
  run_steps. intros Hend Eend. rewrite Hparse. unfold reveal.
  destruct continues.
  - eexists [], _. split; [reflexivity|]. split; [|split; reflexivity].
    destruct (0 <? speed_delay); reflexivity.
  - exists ending, self2. split; [exact Hclose|]. split; [|exact Hend].
    destruct (0 <? speed_delay); simpl; rewrite Eend; reflexivity.
Qed.


End Combat.

(** ** Reading the traces of the loops and of the closing of a combat *)

Lemma fills_table_silent (rows : Trace) (title widget : string) :
  forallb fills_table rows = true ->
  calls rows = [] /\ awarded rows = [] /\ informed title rows = []
  /\ texts_of widget rows = [].
Proof.
  intros H. repeat split; (eapply omap_none_on; [|exact H]);
    intros [c|g] He; try destruct g; simpl in *; congruence.
Qed.

Lemma reads_quests_silent (quests : Trace) (widget : string) :
  forallb reads_quests quests = true -> texts_of widget quests = [].
Proof.
  intros H. eapply omap_none_on; [|exact H].
  intros [c|g] He; [destruct c|]; simpl in *; congruence.
Qed.

Lemma closes_combat_silent (ending : Trace) (widget : string) :
  forallb closes_combat ending = true ->
  timers ending = [] /\ texts_of widget ending = [] /\ values_of widget ending = []
  /\ maxima_of widget ending = [].
Proof.
  intros H. repeat split; (eapply omap_none_on; [|exact H]);
    intros [c|g] He; try destruct g; simpl in *; congruence.
Qed.

(** ** The rarity table of the code against the one of the specification *)

Lemma rarity_xp_lookup (rarity : string) :
  RecyclerDialog.rarity_xp !! rarity = rarity_table rarity.
Proof.
  unfold rarity_table, RecyclerDialog.rarity_xp.
  destruct (String.eqb_spec rarity "common") as [->|?]; [reflexivity|].
  destruct (String.eqb_spec rarity "uncommon") as [->|?]; [reflexivity|].
  destruct (String.eqb_spec rarity "rare") as [->|?]; [reflexivity|].
  destruct (String.eqb_spec rarity "epic") as [->|?]; [reflexivity|].
  destruct (String.eqb_spec rarity "legendary") as [->|?]; [reflexivity|].
  rewrite !lookup_insert_ne by congruence.
  rewrite ?lookup_singleton_ne, ?lookup_empty by congruence. reflexivity.
Qed.

(** * The claims *)

(** C1. Selling [n >= 1] units of an item whose rarity is one of common,
    uncommon, rare, epic, legendary awards exactly [n * rarity_table[rarity]]
    experience points: [sell_item] returns, calls [award_xp] once, for the
    current player and that amount, the player it leaves is the awarded one,
    and the one "Item Sold" box reports the same amount. *)
Theorem sell_item_awards_rarity_xp {DB} `{!Backend DB} (g : GameState DB)
    (player : Player.t) (item : Item.t) (item_id n v : Z) :
  current_player g = Some player ->
  ItemRepository_get_by_id (db g) item_id = Some item ->
  rarity_table (Item.rarity item) = Some v ->
  1 <= n ->
  let o := RecyclerDialog.sell_item item_id n g in
  result_of o = Ok tt
  /\ awarded (trace_of o) = [(player, n * v)]
  /\ current_player (state_of o) = Some (award_xp player (n * v)).1
  /\ informed "Item Sold" (trace_of o) =
     ["Sold " +:+ str n +:+ "x " +:+ Item.name item +:+ " for " +:+ str (n * v) +:+ " XP!"].
Proof.
  intros Hp Hitem Hv Hn o.
  destruct (sell_item_run g player item item_id n Hp Hitem) as (rows & Hrows & E).
  assert (Hxp : RecyclerDialog.xp_reward item n = n * v).
  { unfold RecyclerDialog.xp_reward. rewrite rarity_xp_lookup, Hv. simpl. lia. }
  rewrite Hxp in E.
  destruct (fills_table_silent rows "Item Sold" "" Hrows) as (_ & Ha & Hi & _).
  subst o. rewrite E. unfold result_of, state_of, trace_of. simpl.
  split; [reflexivity|]. split; [|split; [reflexivity|]].
  - unfold awarded in *. rewrite omap_app, Ha. simpl.
    destruct (award_xp player (n * v)).2; reflexivity.
  - unfold informed in *. rewrite omap_app, Hi. simpl.
    destruct (award_xp player (n * v)).2; reflexivity.
Qed.

Lemma sell_item_awards_rarity_xp_witness :
  awarded (trace_of (RecyclerDialog.sell_item 7 2 Mem.state)) = [(Mem.hero, 2 * 25)]
  /\ informed "Item Sold" (trace_of (RecyclerDialog.sell_item 7 2 Mem.state)) =
     ["Sold 2x sword for 50 XP!"].
Proof.
  pose proof (sell_item_awards_rarity_xp Mem.state Mem.hero Mem.sword 7 2 25
                eq_refl eq_refl eq_refl ltac:(lia)) as (_ & Ha & _ & Hi).
  split; [exact Ha | exact Hi].
Defined.

(** C8. An item whose rarity is none of the five sells as a common one:
    [sell_item] returns and awards [5 * n] experience points, and reports
    that amount. *)
Theorem unknown_rarity_sells_as_common {DB} `{!Backend DB} (g : GameState DB)
    (player : Player.t) (item : Item.t) (item_id n : Z) :
  current_player g = Some player ->
  ItemRepository_get_by_id (db g) item_id = Some item ->
  Item.rarity item ∉ ["common"; "uncommon"; "rare"; "epic"; "legendary"] ->
  let o := RecyclerDialog.sell_item item_id n g in
  result_of o = Ok tt
  /\ awarded (trace_of o) = [(player, 5 * n)]
  /\ informed "Item Sold" (trace_of o) =
     [RecyclerDialog.sold_message n item (5 * n)].
Proof.
  intros Hp Hitem Hr o.
  destruct (sell_item_run g player item item_id n Hp Hitem) as (rows & Hrows & E).
  assert (Hxp : RecyclerDialog.xp_reward item n = 5 * n).
  { unfold RecyclerDialog.xp_reward. rewrite rarity_xp_lookup. unfold rarity_table.
    rewrite !elem_of_cons, elem_of_nil in Hr.
    destruct (String.eqb_spec (Item.rarity item) "common"); [tauto|].
    destruct (String.eqb_spec (Item.rarity item) "uncommon"); [tauto|].
    destruct (String.eqb_spec (Item.rarity item) "rare"); [tauto|].
    destruct (String.eqb_spec (Item.rarity item) "epic"); [tauto|].
    destruct (String.eqb_spec (Item.rarity item) "legendary"); [tauto|].
    reflexivity. }
  rewrite Hxp in E.
  destruct (fills_table_silent rows "Item Sold" "" Hrows) as (_ & Ha & Hi & _).
  subst o. rewrite E. unfold result_of, trace_of. simpl.
  split; [reflexivity|]. split.
  - unfold awarded in *. rewrite omap_app, Ha. simpl.
    destruct (award_xp player (5 * n)).2; reflexivity.
  - unfold informed in *. rewrite omap_app, Hi. simpl.
    destruct (award_xp player (5 * n)).2; reflexivity.
Qed.

Lemma unknown_rarity_sells_as_common_witness :
  awarded (trace_of (RecyclerDialog.sell_item 8 3 Mem.state)) = [(Mem.hero, 15)]
  /\ informed "Item Sold" (trace_of (RecyclerDialog.sell_item 8 3 Mem.state)) =
     ["Sold 3x shield for 15 XP!"].
Proof.
  pose proof (unknown_rarity_sells_as_common Mem.state Mem.hero Mem.shield 8 3
                eq_refl eq_refl ltac:(compute_done)) as (_ & Ha & Hi).
  split; [exact Ha | exact Hi].
Defined.

(** C6. The missing-entity returns are atomic.  When there is no current
    player, or the item id resolves to no item, [sell_item] returns with the
    state it started from, having emitted nothing but the item lookup: no
    repository write, no award, no toolkit call.  When there is no current
    player, so do [equip_item] and [unequip_item]. *)
Theorem missing_entity_returns_are_atomic {DB} `{!Backend DB} (g : GameState DB)
    (item_id quantity : Z) :
  current_player g = None \/ ItemRepository_get_by_id (db g) item_id = None ->
  untouched g (RecyclerDialog.sell_item item_id quantity g)
  /\ (current_player g = None ->
      untouched g (PlayerView.equip_item item_id g)
      /\ untouched g (PlayerView.unequip_item item_id g)).
Proof.
  intros Hmissing. split.
  - unfold untouched, RecyclerDialog.sell_item, mbind, run_mbind, bind, get, query.
    simpl. destruct (current_player g) as [player|] eqn:Hp.
    + destruct Hmissing as [?|Hitem]; [discriminate|]. simpl. rewrite Hitem.
      repeat split.
    + repeat split.
  - intros Hp.
    unfold untouched, PlayerView.equip_item, PlayerView.unequip_item, mbind, run_mbind,
      bind, get.
    simpl. rewrite Hp. repeat split.
Qed.

Lemma missing_entity_returns_are_atomic_witness :
  RecyclerDialog.sell_item 7 1 Mem.no_player = (Ok tt, Mem.no_player, [])
  /\ untouched Mem.no_player (PlayerView.equip_item 7 Mem.no_player)
  /\ untouched Mem.state (RecyclerDialog.sell_item 404 1 Mem.state).
Proof.
  pose proof (missing_entity_returns_are_atomic Mem.no_player 7 1 (or_introl eq_refl))
    as (_ & Hequip).
  pose proof (missing_entity_returns_are_atomic Mem.state 404 1 (or_intror eq_refl))
    as (Hsell & _).
  split; [reflexivity|]. split; [exact (proj1 (Hequip eq_refl)) | exact Hsell].
Defined.

(** ** The display within the toolkit's integers *)

Lemma fits_c_int_clamped (hp floor : Z) :
  0 <= floor <= 1 -> hp <= 2147483647 -> fits_c_int (Z.max hp floor) = true.
Proof.
  intros Hfloor Hhp. unfold fits_c_int.
  apply andb_true_intro. split; [apply Z.leb_le | apply Z.leb_le]; lia.
Qed.

Lemma checked_update_display_run {DB} `{!Backend DB} (self : CombatDialog.t DB) :
  Enemy.hp (CombatDialog.enemy self) <= 2147483647 ->
  Player.hp (CombatDialog.combat_player self) <= 2147483647 ->
  Checked.update_display self =
  (Ok tt, self, display_events (CombatDialog.enemy self) (CombatDialog.combat_player self)).
Proof.
  intros He Hp.
  pose proof (fits_c_int_clamped (Enemy.hp (CombatDialog.enemy self)) 1
                ltac:(lia) He) as E1.
  pose proof (fits_c_int_clamped (Enemy.hp (CombatDialog.enemy self)) 0
                ltac:(lia) He) as E0.
  pose proof (fits_c_int_clamped (Player.hp (CombatDialog.combat_player self)) 1
                ltac:(lia) Hp) as P1.
  pose proof (fits_c_int_clamped (Player.hp (CombatDialog.combat_player self)) 0
                ltac:(lia) Hp) as P0.
  unfold Checked.update_display, qt, accepted, display_events.
  unfold mbind, run_mbind, bind, get, gui, tell, raise. cbn -[Z.max fits_c_int].
  rewrite E1. cbn -[Z.max fits_c_int]. rewrite E0. cbn -[Z.max fits_c_int].
  rewrite P1. cbn -[Z.max fits_c_int]. rewrite P0. reflexivity.
Qed.

(** How far [update_display] gets: the calls up to the first one the toolkit
    refuses. *)
Lemma checked_update_display_prefix {DB} `{!Backend DB} (self : CombatDialog.t DB) :
  exists n,
    trace_of (Checked.update_display self) =
    take n (display_events (CombatDialog.enemy self) (CombatDialog.combat_player self)).
Proof.
  unfold Checked.update_display, qt, accepted, display_events.
  unfold mbind, run_mbind, bind, get, gui, tell, raise, trace_of. cbn -[Z.max fits_c_int].
  destruct (fits_c_int (Z.max (Enemy.hp (CombatDialog.enemy self)) 1));
    cbn -[Z.max fits_c_int]; [|exists 1%nat; reflexivity].
  destruct (fits_c_int (Z.max (Enemy.hp (CombatDialog.enemy self)) 0));
    cbn -[Z.max fits_c_int]; [|exists 2%nat; reflexivity].
  destruct (fits_c_int (Z.max (Player.hp (CombatDialog.combat_player self)) 1));
    cbn -[Z.max fits_c_int]; [|exists 5%nat; reflexivity].
  destruct (fits_c_int (Z.max (Player.hp (CombatDialog.combat_player self)) 0));
    cbn -[Z.max fits_c_int]; [exists 8%nat | exists 6%nat]; reflexivity.
Qed.




(** ** Stats with the equipped bonuses *)

Lemma refresh_stat_labels {DB} `{!Backend DB} (g : GameState DB) (player : Player.t) :
  current_player g = Some player ->
  let inventory := ItemRepository_get_player_inventory (db g) (Player.id player) in
  let bonuses := sum_equipped_bonuses inventory in
  let shown := trace_of (PlayerView.refresh g) in
  texts_of "hp_label" shown =
    [PlayerView.stat_text "HP" (Player.hp player) (getitem bonuses "hp")]
  /\ texts_of "attack_label" shown =
    [PlayerView.stat_text "Attack" (Player.attack player) (getitem bonuses "attack")]
  /\ texts_of "defense_label" shown =
    [PlayerView.stat_text "Defense" (Player.defense player) (getitem bonuses "defense")]
  /\ texts_of "speed_label" shown =
    [PlayerView.stat_text "Speed" (Player.speed player) (getitem bonuses "speed")]
  /\ texts_of "luck_label" shown =
    [PlayerView.stat_text "Luck" (Player.luck player) (getitem bonuses "luck")].
Proof.
  intros Hp inventory bonuses shown.
  destruct (refresh_run g player Hp) as (rows & quests & achievements & Hrows & Hquests & E).
  subst shown. rewrite E. unfold trace_of. cbn [snd]. fold inventory bonuses.
  clearbody bonuses.
  assert (Hsilent : forall widget,
            String.eqb "achievements_label" widget = false ->
            texts_of widget
              (rows ++ Called GetAllWorlds
                 :: quests ++ [Ui (setText "achievements_label" achievements)]) = []).
  { intros widget Hw. unfold texts_of. rewrite omap_app. cbn -[String.eqb].
    rewrite omap_app. cbn -[String.eqb]. rewrite Hw.
    destruct (fills_table_silent rows "" widget Hrows) as (_ & _ & _ & Hr).
    pose proof (reads_quests_silent quests widget Hquests) as Hq.
    unfold texts_of in Hr, Hq. rewrite Hr, Hq. reflexivity. }
  split; [|split; [|split; [|split]]];
    match goal with
    | |- texts_of ?w (?front ++ ?back) = _ =>
        unfold texts_of at 1; rewrite omap_app;
        pose proof (Hsilent w eq_refl) as Hback; unfold texts_of in Hback;
        rewrite Hback; reflexivity
    end.
Qed.

(** C2. Every stat shown by [PlayerView.refresh], and every stat of the
    combat player built by [CombatDialog.__init__], is the player's base value
    plus the sum of that stat's bonuses over the inventory entries whose
    equipped flag is true; the quantity of an entry plays no part. *)
Theorem stats_are_base_plus_equipped_bonuses {DB} `{!Backend DB} (g : GameState DB)
    (player : Player.t) (enemy : Enemy.t) (loot_quality : Z) :
  current_player g = Some player ->
  let inventory := ItemRepository_get_player_inventory (db g) (Player.id player) in
  let bonus := fun stat => equipped_total stat inventory in
  let line := fun (label : string) (base extra : Z) =>
    label +:+ ": " +:+ str (base + extra) +:+ " (" +:+ str base +:+ " + " +:+ str extra
    +:+ ")" in
  let shown := trace_of (PlayerView.refresh g) in
  let fighter :=
    CombatDialog.combat_player
      (state_of (CombatDialog.init player enemy loot_quality (db g))) in
  (texts_of "hp_label" shown = [line "HP" (Player.hp player) (bonus "hp")]
   /\ texts_of "attack_label" shown = [line "Attack" (Player.attack player) (bonus "attack")]
   /\ texts_of "defense_label" shown =
      [line "Defense" (Player.defense player) (bonus "defense")]
   /\ texts_of "speed_label" shown = [line "Speed" (Player.speed player) (bonus "speed")]
   /\ texts_of "luck_label" shown = [line "Luck" (Player.luck player) (bonus "luck")])
  /\ (Player.hp fighter = Player.hp player + bonus "hp"
      /\ Player.attack fighter = Player.attack player + bonus "attack"
      /\ Player.defense fighter = Player.defense player + bonus "defense"
      /\ Player.speed fighter = Player.speed player + bonus "speed"
      /\ Player.luck fighter = Player.luck player + bonus "luck").
Proof.
  intros Hp inventory bonus line shown fighter.
  assert (Hget : forall stat, stat ∈ known_stats ->
            getitem (sum_equipped_bonuses inventory) stat = bonus stat).
  { intros stat Hin. apply getitem_sum_equipped_bonuses, Hin. }
  assert (Hhp : "hp" ∈ known_stats) by compute_done.
  assert (Hat : "attack" ∈ known_stats) by compute_done.
  assert (Hde : "defense" ∈ known_stats) by compute_done.
  assert (Hsp : "speed" ∈ known_stats) by compute_done.
  assert (Hlu : "luck" ∈ known_stats) by compute_done.
  split.
  - pose proof (refresh_stat_labels g player Hp) as H. simpl in H. fold inventory in H.
    rewrite !Hget in H by assumption. exact H.
  - subst fighter. unfold CombatDialog.init, state_of. simpl. fold inventory.
    rewrite !Hget by assumption. repeat split.
Qed.

Lemma stats_are_base_plus_equipped_bonuses_witness :
  texts_of "hp_label" (trace_of (PlayerView.refresh Mem.state)) = ["HP: 120 (100 + 20)"]
  /\ texts_of "attack_label" (trace_of (PlayerView.refresh Mem.state))
     = ["Attack: 14 (10 + 4)"]
  /\ Player.defense
       (CombatDialog.combat_player Mem.slime_fight) = 5 + 3
  /\ Player.luck
       (CombatDialog.combat_player Mem.slime_fight) = 5 + 0.
Proof.
  pose proof (stats_are_base_plus_equipped_bonuses Mem.state Mem.hero Mem.slime 1 eq_refl)
    as ((Hhp & Hattack & _) & (_ & _ & Hdefense & _ & Hluck)).
  split; [exact Hhp|]. split; [exact Hattack|]. split; [exact Hdefense | exact Hluck].
Defined.

(** ** Bonuses under keys that are no stat *)

Lemma pairs_bonus_known (stat : string) (bonuses : list (string * Z)) :
  stat ∈ known_stats ->
  pairs_bonus stat
    (List.filter (fun sb : string * Z => bool_decide (sb.1 ∈ known_stats)) bonuses)
  = pairs_bonus stat bonuses.
Proof.
  intros Hin. induction bonuses as [|[k v] rest IH]; [reflexivity|].
  simpl. rewrite pairs_bonus_cons. destruct (bool_decide (k ∈ known_stats)) eqn:Hk.
  - rewrite pairs_bonus_cons, IH. reflexivity.
  - rewrite IH. destruct (decide (k = stat)) as [->|?]; [|lia].
    apply bool_decide_eq_false in Hk. contradiction.
Qed.

Lemma equipped_total_drop_unknown (stat : string) (inventory : list InvEntry) :
  stat ∈ known_stats ->
  equipped_total stat (map drop_unknown inventory) = equipped_total stat inventory.
Proof.
  intros Hin. induction inventory as [|[[item quantity] equipped] rest IH]; [reflexivity|].
  simpl map. unfold drop_unknown at 1. simpl.
  rewrite !equipped_total_cons, IH. unfold item_bonus, Item.get_stat_bonuses. simpl.
  rewrite pairs_bonus_known by assumption. reflexivity.
Qed.

Lemma sum_equipped_bonuses_drop_unknown (inventory : list InvEntry) :
  sum_equipped_bonuses (map drop_unknown inventory) = sum_equipped_bonuses inventory.
Proof.
  apply map_eq. intros stat. rewrite !sum_equipped_bonuses_lookup.
  destruct (bool_decide (stat ∈ known_stats)) eqn:Hk; [|reflexivity].
  apply bool_decide_eq_true in Hk. rewrite equipped_total_drop_unknown by assumption.
  reflexivity.
Qed.

(** C10. A bonus whose key is not one of hp, attack, defense, speed, luck is
    ignored by both aggregations: an inventory and the same inventory without
    such bonuses give the same five stat labels in [PlayerView.refresh] and
    the same bonuses and combat player in [CombatDialog.__init__], and no
    other key ever enters the aggregated bonuses. *)
Theorem unknown_stat_keys_are_ignored {DB} `{!Backend DB} (g g' : GameState DB)
    (player : Player.t) (enemy : Enemy.t) (loot_quality : Z) :
  current_player g = Some player ->
  current_player g' = Some player ->
  ItemRepository_get_player_inventory (db g') (Player.id player) =
    map drop_unknown (ItemRepository_get_player_inventory (db g) (Player.id player)) ->
  let shown := trace_of (PlayerView.refresh g) in
  let shown' := trace_of (PlayerView.refresh g') in
  let dialog := state_of (CombatDialog.init player enemy loot_quality (db g)) in
  let dialog' := state_of (CombatDialog.init player enemy loot_quality (db g')) in
  (texts_of "hp_label" shown = texts_of "hp_label" shown'
   /\ texts_of "attack_label" shown = texts_of "attack_label" shown'
   /\ texts_of "defense_label" shown = texts_of "defense_label" shown'
   /\ texts_of "speed_label" shown = texts_of "speed_label" shown'
   /\ texts_of "luck_label" shown = texts_of "luck_label" shown')
  /\ CombatDialog.equipped_bonuses dialog = CombatDialog.equipped_bonuses dialog'
  /\ CombatDialog.combat_player dialog = CombatDialog.combat_player dialog'
  /\ (forall stat, stat ∉ known_stats ->
        CombatDialog.equipped_bonuses dialog !! stat = None).
Proof.
  intros Hp Hp' Hinv shown shown' dialog dialog'.
  pose proof (sum_equipped_bonuses_drop_unknown
                (ItemRepository_get_player_inventory (db g) (Player.id player))) as Hsame.
  rewrite <- Hinv in Hsame.
  split; [|split; [|split]].
  - pose proof (refresh_stat_labels g player Hp) as (H1 & H2 & H3 & H4 & H5).
    pose proof (refresh_stat_labels g' player Hp') as (H1' & H2' & H3' & H4' & H5').
    subst shown shown'. rewrite Hsame in H1', H2', H3', H4', H5'.
    rewrite H1, H2, H3, H4, H5, H1', H2', H3', H4', H5'. repeat split.
  - subst dialog dialog'. unfold CombatDialog.init, state_of. simpl. symmetry. exact Hsame.
  - subst dialog dialog'. unfold CombatDialog.init, state_of. simpl. rewrite Hsame.
    reflexivity.
  - intros stat Hstat. subst dialog. unfold CombatDialog.init, state_of. simpl.
    rewrite sum_equipped_bonuses_lookup. rewrite bool_decide_eq_false_2 by assumption.
    reflexivity.
Qed.

Lemma unknown_stat_keys_are_ignored_witness :
  texts_of "attack_label" (trace_of (PlayerView.refresh Mem.state)) =
  texts_of "attack_label"
    (trace_of (PlayerView.refresh
                 (mkGameState (Mem.mk (map drop_unknown Mem.bag) [] []) (Some Mem.hero))))
  /\ CombatDialog.equipped_bonuses Mem.slime_fight !! "mana" = None.
Proof.
  pose proof (unknown_stat_keys_are_ignored Mem.state
                (mkGameState (Mem.mk (map drop_unknown Mem.bag) [] []) (Some Mem.hero))
                Mem.hero Mem.slime 1 eq_refl eq_refl eq_refl)
    as ((_ & Hattack & _) & _ & _ & Hnone).
  split; [exact Hattack | exact (Hnone "mana" ltac:(compute_done))].
Defined.

(** ** A turn within the toolkit's integers *)

Lemma checked_update_display_shape {DB} `{!Backend DB} (self : CombatDialog.t DB) :
  state_of (Checked.update_display self) = self
  /\ timers (trace_of (Checked.update_display self)) = [].
Proof.
  unfold Checked.update_display, qt, accepted.
  unfold mbind, run_mbind, bind, get, gui, tell, raise, state_of, trace_of.
  cbn -[Z.max fits_c_int].
  destruct (fits_c_int (Z.max (Enemy.hp (CombatDialog.enemy self)) 1));
    cbn -[Z.max fits_c_int]; [|split; reflexivity].
  destruct (fits_c_int (Z.max (Enemy.hp (CombatDialog.enemy self)) 0));
    cbn -[Z.max fits_c_int]; [|split; reflexivity].
  destruct (fits_c_int (Z.max (Player.hp (CombatDialog.combat_player self)) 1));
    cbn -[Z.max fits_c_int]; [|split; reflexivity].
  destruct (fits_c_int (Z.max (Player.hp (CombatDialog.combat_player self)) 0));
    cbn -[Z.max fits_c_int]; split; reflexivity.
Qed.

Lemma checked_execute_action_deferred {DB} `{!Backend DB} (self : CombatDialog.t DB)
    (action : string) (speed_delay : Z) :
  py_int (speed_setting self) = Some speed_delay ->
  0 < speed_delay <= 2147483647 ->
  Checked.execute_action action self = CombatDialog.execute_action action self.
Proof.
  intros Hparse Hdelay.
  unfold Checked.execute_action, CombatDialog.execute_action, CombatDialog.call_combat_turn,
    speed_setting in *.
  unfold mbind, run_mbind, bind, query. simpl.
  destruct (combat_turn (CombatDialog.combat_player self) (CombatDialog.enemy self) action)
    as [[cp e] [[message continues] result]].
  simpl. rewrite Hparse.
  destruct (Z.ltb_spec 0 speed_delay) as [_|?]; [|lia].
  unfold qt, accepted, fits_c_int.
  destruct (Z.leb_spec (-2147483648) speed_delay) as [_|?]; [|lia].
  destruct (Z.leb_spec speed_delay 2147483647) as [_|?]; [|lia].
  reflexivity.
Qed.

Lemma checked_execute_action_overflow {DB} `{!Backend DB} (self : CombatDialog.t DB)
    (action : string) (speed_delay : Z) :
  py_int (speed_setting self) = Some speed_delay ->
  2147483647 < speed_delay ->
  Checked.execute_action action self =
  (Raised "OverflowError", after_turn self action,
   opening self action ++ [Ui (append "log_text" (turn_message self action))]).
Proof.
  intros Hparse Hdelay.
  unfold Checked.execute_action, CombatDialog.call_combat_turn, speed_setting, after_turn,
    opening, turn_message in *.
  unfold mbind, run_mbind, bind, query. simpl.
  destruct (combat_turn (CombatDialog.combat_player self) (CombatDialog.enemy self) action)
    as [[cp e] [[message continues] result]].
  simpl. rewrite Hparse.
  destruct (Z.ltb_spec 0 speed_delay) as [_|?]; [|lia].
  unfold qt, accepted, fits_c_int.
  destruct (Z.leb_spec speed_delay 2147483647) as [?|_]; [lia|].
  rewrite andb_false_r. reflexivity.
Qed.

Lemma checked_execute_action_immediate {DB} `{!Backend DB} (self : CombatDialog.t DB)
    (action : string) (speed_delay : Z) :
  py_int (speed_setting self) = Some speed_delay ->
  speed_delay <= 0 ->
  exists rest,
    forallb closes_combat rest = true
    /\ trace_of (Checked.execute_action action self) =
       opening self action
       ++ Ui (append "log_text" (turn_message self action))
       :: trace_of (Checked.update_display (after_turn self action)) ++ rest.
Proof.
  intros Hparse Hdelay.
  pose proof (checked_update_display_shape (after_turn self action)) as (Hstate & _).
  destruct (combat_ended_run (after_turn self action) (turn_result self action))
    as (ending & self2 & Hclose & Eend & _).
  revert Hstate Eend.
  unfold Checked.execute_action, CombatDialog.call_combat_turn, speed_setting, after_turn,
    opening, turn_message, turn_result in *.
  unfold mbind, run_mbind, mret, run_mret, bind, ret, query. simpl.
  destruct (combat_turn (CombatDialog.combat_player self) (CombatDialog.enemy self) action)
    as [[cp e] [[message continues] result]].
  simpl. rewrite Hparse.
  destruct (Z.ltb_spec 0 speed_delay) as [?|_]; [lia|].
  unfold state_of, trace_of.
  destruct (Checked.update_display _) as [[r s1] shown]. simpl.
  intros -> Eend. destruct r as [[]|exn]; simpl.
  - destruct continues; simpl.
    + exists []. split; [reflexivity|]. rewrite ?app_nil_r. reflexivity.
    + rewrite Eend. exists ending. split; [exact Hclose|]. reflexivity.
  - exists []. split; [reflexivity|]. rewrite ?app_nil_r. reflexivity.
Qed.

(** C7, as the code has it.  When [combat_text_speed] parses to a delay
    greater than 0 that the toolkit takes, that is one up to 2147483647,
    [execute_action] appends the turn message to the log at once and starts
    one single-shot timer of that many milliseconds for [update_display]; no
    label or bar is touched in the handler itself.  When the delay is 0, which
    is what the default ["0"] parses to (or below 0), the message is appended
    and then [update_display] runs, both at once, and no timer is started;
    [update_display] runs to its end when both hp are at most 2147483647. *)
Theorem combat_text_timer {DB} `{!Backend DB} (self : CombatDialog.t DB) (action : string)
    (speed_delay : Z) :
  py_int (speed_setting self) = Some speed_delay ->
  let self1 := after_turn self action in
  let t := trace_of (Checked.execute_action action self) in
  let logged := opening self action ++ [Ui (append "log_text" (turn_message self action))] in
  py_int "0" = Some 0
  /\ exists ending,
       forallb closes_combat ending = true
       /\ (0 < speed_delay <= 2147483647 ->
           t = logged ++ Ui (singleShot_update_display speed_delay) :: ending
           /\ timers t = [speed_delay]
           /\ forall widget,
                texts_of widget t = [] /\ values_of widget t = []
                /\ maxima_of widget t = [])
       /\ (speed_delay <= 0 ->
           t = logged ++ trace_of (Checked.update_display self1) ++ ending
           /\ timers t = []
           /\ (Enemy.hp (CombatDialog.enemy self1) <= 2147483647 ->
               Player.hp (CombatDialog.combat_player self1) <= 2147483647 ->
               trace_of (Checked.update_display self1) =
               display_events (CombatDialog.enemy self1)
                 (CombatDialog.combat_player self1))).
Proof.
  intros Hparse self1 t logged. split; [reflexivity|].
  destruct (Z.ltb_spec 0 speed_delay) as [Hpos|Hnonpos].
  - destruct (Z.leb_spec speed_delay 2147483647) as [Hfits|Hover].
    + destruct (execute_action_run self action speed_delay Hparse)
        as (ending & self2 & Hclose & E & _).
      exists ending. split; [exact Hclose|]. split; [|intros ?; lia].
      intros _. subst t logged.
      rewrite (checked_execute_action_deferred self action speed_delay Hparse
                 (conj Hpos Hfits)).
      rewrite E. unfold trace_of, reveal. cbn [snd].
      pose proof (fun widget => closes_combat_silent ending widget Hclose) as Hsilent.
      destruct (Hsilent "") as (Htimers & _).
      destruct (Z.ltb_spec 0 speed_delay) as [_|?]; [|lia].
      split; [rewrite <- app_assoc; reflexivity|]. split.
      * unfold timers in *. rewrite !omap_app. simpl. rewrite Htimers. reflexivity.
      * intros widget. destruct (Hsilent widget) as (_ & Htexts & Hvalues & Hmaxima).
        unfold texts_of, values_of, maxima_of in *. rewrite !omap_app. simpl.
        rewrite Htexts, Hvalues, Hmaxima. repeat split.
    + exists []. split; [reflexivity|]. split; intros ?; lia.
  - destruct (checked_execute_action_immediate self action speed_delay Hparse Hnonpos)
      as (rest & Hclose & E).
    exists rest. split; [exact Hclose|]. split; [intros ?; lia|].
    intros _. subst t logged. rewrite E. fold self1.
    split; [rewrite <- app_assoc; reflexivity|]. split.
    + destruct (closes_combat_silent rest "" Hclose) as (Htimers & _).
      destruct (checked_update_display_shape self1) as (_ & Hshown).
      unfold timers in *. rewrite !omap_app. simpl. rewrite omap_app, Hshown, Htimers.
      reflexivity.
    + intros He Hp. rewrite (checked_update_display_run self1 He Hp). reflexivity.
Qed.

Lemma combat_text_timer_witness :
  timers (trace_of (Checked.execute_action "defend" Mem.slow_slime_fight)) = [250]
  /\ timers (trace_of (Checked.execute_action "defend" Mem.slime_fight)) = [].
Proof.
  pose proof (combat_text_timer Mem.slow_slime_fight "defend" 250 eq_refl)
    as (_ & ending & _ & Hslow & _).
  pose proof (combat_text_timer Mem.slime_fight "defend" 0 eq_refl)
    as (_ & ending' & _ & _ & Hfast).
  split.
  - exact (proj1 (proj2 (Hslow ltac:(lia)))).
  - exact (proj1 (proj2 (Hfast ltac:(lia)))).
Defined.

(** C7, as the specification has it, fails: with the setting
    ["4294967296"] the delay parsed is above 0, the message is appended, and
    [QTimer.singleShot] refuses the delay; [execute_action] raises
    [OverflowError], no timer is started and the display is never updated. *)
Lemma timer_overflow_counterexample :
  py_int (speed_setting Mem.endless_slime_fight) = Some 4294967296
  /\ result_of (Checked.execute_action "defend" Mem.endless_slime_fight)
     = Raised "OverflowError"
  /\ guis (trace_of (Checked.execute_action "defend" Mem.endless_slime_fight))
     = [append "log_text" "The fight goes on."]
  /\ timers (trace_of (Checked.execute_action "defend" Mem.endless_slime_fight)) = []
  /\ ~ defers_display Mem.endless_slime_fight "defend".
Proof.
  split; [reflexivity|]. split; [reflexivity|]. split; [reflexivity|].
  split; [reflexivity|].
  unfold defers_display. intros Hdefers.
  specialize (Hdefers 4294967296 eq_refl ltac:(lia)). vm_compute in Hdefers. discriminate.
Qed.

(** ** The end of a combat *)

Lemma execute_action_decided {DB} `{!Backend DB} (self : CombatDialog.t DB)
    (action : string) (speed_delay : Z) :
  py_int (speed_setting self) = Some speed_delay ->
  turn_continues self action = false ->
  turn_result self action = "victory" \/ turn_result self action = "defeat" ->
  let self1 := after_turn self action in
  let t := trace_of (CombatDialog.execute_action action self) in
  handed_over t = [written_back self1]
  /\ updated t = [stored_after self1 (turn_result self action)].
Proof.
  intros Hparse Hends Hresult self1 t.
  destruct (execute_action_run self action speed_delay Hparse)
    as (ending & self2 & Hclose & E & Hend).
  rewrite Hends in Hend.
  assert (Hdecided : String.eqb (turn_result self action) "victory"
                     || String.eqb (turn_result self action) "defeat" = true).
  { destruct Hresult as [-> | ->]; reflexivity. }
  rewrite Hdecided in Hend. destruct Hend as (Hupdated & Hhanded).
  subst t. rewrite E. unfold trace_of, reveal, opening. cbn [snd]. fold self1.
  unfold handed_over, updated in *.
  rewrite !omap_app, Hupdated, Hhanded.
  destruct (0 <? speed_delay); split; reflexivity.
Qed.

(** C3, as the code has it.  When a combat ends in victory or defeat, the
    record handed to [handle_victory] or [handle_defeat], which is the one then
    passed to [PlayerRepository.update], carries the base attack, defense,
    speed and luck, and as hp the combat player's hp minus the equipped hp
    bonus, raised to 1 when that difference is below 1. *)
Theorem write_back_keeps_base_stats {DB} `{!Backend DB} (self : CombatDialog.t DB)
    (action : string) (speed_delay : Z) :
  py_int (speed_setting self) = Some speed_delay ->
  turn_continues self action = false ->
  turn_result self action = "victory" \/ turn_result self action = "defeat" ->
  let self1 := after_turn self action in
  let t := trace_of (CombatDialog.execute_action action self) in
  let fought := Player.hp (CombatDialog.combat_player self1)
                - getitem (CombatDialog.equipped_bonuses self) "hp" in
  exists back,
    handed_over t = [back]
    /\ updated t =
       [if String.eqb (turn_result self action) "victory"
        then (handle_victory back (CombatDialog.enemy self1) (CombatDialog.loot_quality self)
                (CombatDialog.database self)).1.1
        else (handle_defeat back (CombatDialog.database self)).1.1]
    /\ Player.hp back = Z.max 1 fought
    /\ (1 <= fought -> Player.hp back = fought)
    /\ Player.attack back = Player.attack (CombatDialog.player self)
    /\ Player.defense back = Player.defense (CombatDialog.player self)
    /\ Player.speed back = Player.speed (CombatDialog.player self)
    /\ Player.luck back = Player.luck (CombatDialog.player self).
Proof.
  intros Hparse Hends Hresult self1 t fought.
  destruct (execute_action_decided self action speed_delay Hparse Hends Hresult)
    as (Hhanded & Hupdated).
  exists (written_back self1). fold self1 in Hhanded, Hupdated. fold t in Hhanded, Hupdated.
  split; [exact Hhanded|]. split; [exact Hupdated|].
  subst fought. unfold written_back, self1, after_turn. simpl.
  repeat split. intros Hge. lia.
Qed.

Lemma write_back_keeps_base_stats_witness :
  map Player.hp
    (handed_over
       (trace_of (CombatDialog.execute_action "attack" Mem.slime_fight)))
  = [100]
  /\ map Player.attack
       (handed_over
          (trace_of (CombatDialog.execute_action "attack" Mem.slime_fight)))
     = [10].
Proof.
  pose proof (write_back_keeps_base_stats Mem.slime_fight
                "attack" 0 eq_refl eq_refl (or_introl eq_refl))
    as (back & Hhanded & _ & Hhp & _ & Hattack & _).
  rewrite Hhanded. simpl. rewrite Hhp, Hattack. split; reflexivity.
Defined.

(** C3, as the specification has it, fails: after the defending hero (hp 100,
    an equipped shield giving hp +20 and defense +3) is struck by the ogre,
    the combat player is at hp -72, so the combat hp minus the bonus is -92,
    and the record stored has hp 1. *)
Lemma write_back_is_clamped_counterexample :
  turn_result Mem.ogre_fight "defend" = "defeat"
  /\ Player.hp (CombatDialog.combat_player
                  (state_of (CombatDialog.execute_action "defend" Mem.ogre_fight)))
     - getitem (CombatDialog.equipped_bonuses
                  (state_of (CombatDialog.execute_action "defend" Mem.ogre_fight))) "hp"
     = -92
  /\ map Player.hp
       (updated (trace_of (CombatDialog.execute_action "defend" Mem.ogre_fight))) = [1]
  /\ ~ stores_combat_hp_minus_bonus Mem.ogre_fight "defend".
Proof.
  split; [reflexivity|]. split; [reflexivity|]. split; [reflexivity|].
  unfold stores_combat_hp_minus_bonus. intros Hall.
  assert (Hbool :
    forallb (fun p => Player.hp p =? -92)
      (updated (trace_of (CombatDialog.execute_action "defend" Mem.ogre_fight))) = true).
  { apply forallb_forall. intros p Hin. apply Z.eqb_eq.
    rewrite Forall_forall in Hall. apply Hall. apply list_elem_of_In. exact Hin. }
  vm_compute in Hbool. discriminate.
Qed.



(** ** Calls before the display is touched *)

Lemma engine_calls_before_render (front : list Call) (g : Gui) (rest : Trace) :
  renders g = true ->
  engine_calls (before_render (map Called front ++ Ui g :: rest)) =
  List.filter into_logic_or_repositories front.
Proof.
  intros Hg. unfold engine_calls. induction front as [|c front IH]; simpl.
  - rewrite Hg. reflexivity.
  - rewrite IH. reflexivity.
Qed.

(** C4, as the code has it.  Before anything is rendered again, an equip or
    unequip click (with a current player) makes exactly one repository call,
    an attack, defend or flee click makes exactly one rules-engine call,
    [combat_turn], which is its only call when the turn does not end the
    combat, and a sell click (player and item present) makes four calls:
    [ItemRepository.get_by_id], [ItemRepository.remove_from_inventory],
    [award_xp] and [PlayerRepository.update]. *)
Theorem calls_before_render {DB} `{!Backend DB} (g : GameState DB) (player : Player.t)
    (item : Item.t) (item_id quantity : Z) (self : CombatDialog.t DB) (action : string) :
  current_player g = Some player ->
  ItemRepository_get_by_id (db g) item_id = Some item ->
  let xp := RecyclerDialog.xp_reward item quantity in
  let fight := trace_of (CombatDialog.execute_action action self) in
  let turn :=
    CombatTurn (CombatDialog.combat_player self) (CombatDialog.enemy self) action in
  engine_calls (before_render (trace_of (PlayerView.equip_item item_id g))) =
    [EquipItem (Player.id player) item_id]
  /\ engine_calls (before_render (trace_of (PlayerView.unequip_item item_id g))) =
     [UnequipItem (Player.id player) item_id]
  /\ engine_calls (before_render fight) = [turn]
  /\ (turn_continues self action = true -> engine_calls fight = [turn])
  /\ engine_calls (before_render (trace_of (RecyclerDialog.sell_item item_id quantity g))) =
     [ GetById item_id;
       RemoveFromInventory (Player.id player) item_id quantity;
       AwardXp player xp;
       UpdatePlayer (award_xp player xp).1 ].
Proof.
  intros Hp Hitem xp fight turn.
  destruct (equip_item_run g player item_id Hp) as (shown & Eequip).
  destruct (unequip_item_run g player item_id Hp) as (shown' & Eunequip).
  destruct (sell_item_run g player item item_id quantity Hp Hitem) as (rows & _ & Esell).
  rewrite Eequip, Eunequip, Esell. unfold trace_of. cbn [snd].
  split; [reflexivity|]. split; [reflexivity|]. split; [|split; [|reflexivity]].
  - subst fight. destruct (py_int (speed_setting self)) as [speed_delay|] eqn:Hparse.
    + destruct (execute_action_run self action speed_delay Hparse)
        as (ending & self2 & _ & E & _).
      rewrite E. unfold trace_of, reveal, opening. cbn [snd].
      destruct (0 <? speed_delay); reflexivity.
    + rewrite (execute_action_raises self action Hparse). reflexivity.
  - intros Hcontinues. subst fight.
    destruct (py_int (speed_setting self)) as [speed_delay|] eqn:Hparse.
    + destruct (execute_action_run self action speed_delay Hparse)
        as (ending & self2 & _ & E & Hend).
      rewrite Hcontinues in Hend. destruct Hend as (-> & _).
      rewrite E. unfold trace_of, reveal, opening. cbn [snd].
      destruct (0 <? speed_delay); reflexivity.
    + rewrite (execute_action_raises self action Hparse). reflexivity.
Qed.

Lemma calls_before_render_witness :
  engine_calls (before_render (trace_of (PlayerView.equip_item 9 Mem.state))) =
    [EquipItem 1 9]
  /\ engine_calls
       (before_render (trace_of (CombatDialog.execute_action "attack" Mem.slime_fight))) =
     [CombatTurn (CombatDialog.combat_player Mem.slime_fight) Mem.slime "attack"]
  /\ length (engine_calls
               (before_render (trace_of (RecyclerDialog.sell_item 9 1 Mem.state)))) = 4%nat.
Proof.
  pose proof (calls_before_render Mem.state Mem.hero Mem.ring 9 1 Mem.slime_fight "attack"
                eq_refl eq_refl) as (Hequip & _ & Hfight & _ & Hsell).
  split; [exact Hequip|]. split; [exact Hfight|]. rewrite Hsell. reflexivity.
Defined.

(** C4, as the specification has it, fails: selling two swords makes four
    calls into the repositories and the rules module before the table is
    rendered again, and a fifth while it is. *)
Lemma sell_click_counterexample :
  engine_calls (before_render (trace_of (RecyclerDialog.sell_item 7 2 Mem.state))) =
    [ GetById 7;
      RemoveFromInventory 1 7 2;
      AwardXp Mem.hero 50;
      UpdatePlayer (Player.mk 1 "hero" 1 50 100 10 5 5 5 None) ]
  /\ length (engine_calls (trace_of (RecyclerDialog.sell_item 7 2 Mem.state))) = 5%nat
  /\ ~ one_call_before_render (trace_of (RecyclerDialog.sell_item 7 2 Mem.state)).
Proof.
  split; [reflexivity|]. split; [reflexivity|].
  unfold one_call_before_render. vm_compute. discriminate.
Qed.

(** * Further properties of the widgets *)

(** ** The map view *)

Lemma list_world_listed {DB} `{!MapView.Repositories DB} (d : DB)
    (world : MapView.RepoWorld) :
  MapView.listed (MapView.list_world d world) =
    [(MapView.item_text world (MapView.shown_enemy d world), MapView.id world)]
  /\ MapView.enemy_lookups (MapView.list_world d world) = MapView.named_enemies [world]
  /\ MapView.emitted (MapView.list_world d world) = []
  /\ MapView.switched (MapView.list_world d world) = []
  /\ MapView.detailed (MapView.list_world d world) = [].
Proof.
  unfold MapView.list_world, MapView.main_enemy_of, MapView.shown_enemy,
    MapView.named_enemies.
  simpl. destruct (MapView.main_enemy_id world) as [enemy_id|]; [|repeat split].
  destruct (enemy_id =? 0); repeat split.
Qed.

(** X1. [refresh_worlds] lists every world of the repository once, in the
    repository's order, each item carrying its world's id and the text built
    from the world and its main enemy; it looks an enemy up only for the
    worlds that name one (a non-zero id), and it neither changes the selected
    world nor touches the details, the buttons or the signals. *)
Theorem refresh_worlds_lists_every_world {DB} `{!MapView.Repositories DB} (d : DB)
    (self : MapView.t) :
  let o := MapView.refresh_worlds d self in
  o.1 = self
  /\ MapView.listed o.2 =
     map (fun w => (MapView.item_text w (MapView.shown_enemy d w), MapView.id w))
         (MapView.get_all d)
  /\ MapView.enemy_lookups o.2 = MapView.named_enemies (MapView.get_all d)
  /\ MapView.emitted o.2 = [] /\ MapView.switched o.2 = [] /\ MapView.detailed o.2 = [].
Proof.
  unfold MapView.refresh_worlds. simpl. split; [reflexivity|].
  induction (MapView.get_all d) as [|w ws IH]; [repeat split|].
  destruct IH as (Hl & He & Hs & Hb & Hd).
  destruct (list_world_listed d w) as (Hl1 & He1 & Hs1 & Hb1 & Hd1).
  unfold MapView.listed, MapView.enemy_lookups, MapView.emitted, MapView.switched,
    MapView.detailed in *.
  simpl concat. rewrite !omap_app. rewrite Hl, He, Hs, Hb, Hd, Hl1, He1, Hs1, Hb1, Hd1.
  unfold MapView.named_enemies. simpl.
  destruct (MapView.main_enemy_id w) as [enemy_id|]; [|repeat split].
  destruct (enemy_id =? 0); repeat split.
Qed.

Lemma existing_world_is_shown_aux {DB} `{!MapView.Repositories DB} (d : DB)
    (self : MapView.t) (world_id : Z)
    (world : MapView.RepoWorld) :
  MapView.get_world d world_id = Some world ->
  let o := MapView.on_world_selected world_id d self in
  MapView.current_world_id o.1 = Some world_id
  /\ MapView.switched o.2 =
     [("enter_btn", true); ("quest_btn", true); ("refresh_btn", true)].
Proof.
  intros Hworld. unfold MapView.on_world_selected, MapView.main_enemy_of.
  rewrite Hworld. simpl.
  destruct (MapView.main_enemy_id world) as [enemy_id|]; [|repeat split].
  destruct (enemy_id =? 0); repeat split.
Qed.

(** X2. The id the three navigation buttons emit is the one of the last item
    clicked, whether or not that id still resolves to a world: after
    [on_world_selected] with a non-zero id that the signals, declared
    [pyqtSignal(int)], can carry (a C int), [on_enter_dungeon],
    [on_open_quest_board] and [on_refresh_world] each emit their signal once,
    with that id, and leave the selection as it is. *)
Theorem selected_world_is_emitted {DB} `{!MapView.Repositories DB} (d : DB)
    (self : MapView.t) (world_id : Z) :
  world_id <> 0 ->
  -2147483648 <= world_id <= 2147483647 ->
  let selected := (MapView.on_world_selected world_id d self).1 in
  MapView.on_enter_dungeon selected =
    (selected, [MapView.signal_emit "enter_dungeon" world_id])
  /\ MapView.on_open_quest_board selected =
     (selected, [MapView.signal_emit "open_quest_board" world_id])
  /\ MapView.on_refresh_world selected =
     (selected, [MapView.signal_emit "refresh_world" world_id]).
Proof.
  intros Hid _ selected.
  assert (Hsel : MapView.current_world_id selected = Some world_id).
  { subst selected. unfold MapView.on_world_selected.
    destruct (MapView.get_world d world_id); [|reflexivity].
    destruct (MapView.main_enemy_of d r); reflexivity. }
  unfold MapView.on_enter_dungeon, MapView.on_open_quest_board, MapView.on_refresh_world,
    MapView.emit_current.
  rewrite Hsel. destruct (Z.eqb_spec world_id 0); [contradiction|]. repeat split.
Qed.

Lemma selected_world_is_emitted_witness :
  MapView.on_enter_dungeon (MapView.on_world_selected 77 MapView.atlas (MapView.mk None)).1
  = ((MapView.on_world_selected 77 MapView.atlas (MapView.mk None)).1,
     [MapView.signal_emit "enter_dungeon" 77]).
Proof.
  pose proof (selected_world_is_emitted MapView.atlas (MapView.mk None) 77 ltac:(lia)
                ltac:(lia)) as (Henter & _).
  exact Henter.
Defined.

(** X3. Selecting an item whose world no longer exists is recorded but not
    shown: the id becomes the current one, while the details label and the
    three buttons are left as they were and no enemy is looked up. *)
Theorem missing_world_is_selected_silently {DB} `{!MapView.Repositories DB} (d : DB)
    (self : MapView.t) (world_id : Z) :
  MapView.get_world d world_id = None ->
  let o := MapView.on_world_selected world_id d self in
  MapView.current_world_id o.1 = Some world_id
  /\ o.2 = [MapView.RepoWorldRepository_get_by_id world_id]
  /\ MapView.detailed o.2 = [] /\ MapView.switched o.2 = []
  /\ MapView.enemy_lookups o.2 = [].
Proof.
  intros Hmissing. unfold MapView.on_world_selected. rewrite Hmissing. repeat split.
Qed.

Lemma missing_world_is_selected_silently_witness :
  (MapView.on_world_selected 77 MapView.atlas (MapView.mk (Some 1))).2 =
  [MapView.RepoWorldRepository_get_by_id 77].
Proof.
  pose proof (missing_world_is_selected_silently MapView.atlas (MapView.mk (Some 1)) 77
                eq_refl) as (_ & Htrace & _).
  exact Htrace.
Defined.

(** X4. Selecting a world that exists shows its details once and enables the
    three buttons; the main enemy is looked up only when the world names one,
    and the details end with the enemy's section exactly when it was found. *)
Theorem existing_world_is_shown {DB} `{!MapView.Repositories DB} (d : DB)
    (self : MapView.t) (world_id : Z)
    (world : MapView.RepoWorld) :
  MapView.get_world d world_id = Some world ->
  let o := MapView.on_world_selected world_id d self in
  MapView.current_world_id o.1 = Some world_id
  /\ MapView.detailed o.2 = [MapView.details_text world (MapView.shown_enemy d world)]
  /\ MapView.switched o.2 =
     [("enter_btn", true); ("quest_btn", true); ("refresh_btn", true)]
  /\ MapView.enemy_lookups o.2 = MapView.named_enemies [world]
  /\ MapView.emitted o.2 = [].
Proof.
  intros Hworld. unfold MapView.on_world_selected, MapView.main_enemy_of,
    MapView.shown_enemy, MapView.named_enemies.
  rewrite Hworld. simpl.
  destruct (MapView.main_enemy_id world) as [enemy_id|]; [|repeat split].
  destruct (enemy_id =? 0); repeat split.
Qed.

Lemma existing_world_is_shown_witness :
  MapView.enemy_lookups (MapView.on_world_selected 1 MapView.atlas (MapView.mk None)).2 = [3]
  /\ MapView.enemy_lookups (MapView.on_world_selected 2 MapView.atlas (MapView.mk None)).2
     = [].
Proof.
  pose proof (existing_world_is_shown MapView.atlas (MapView.mk None) 1 MapView.rocq
                eq_refl) as (_ & _ & _ & Hlookup & _).
  pose proof (existing_world_is_shown MapView.atlas (MapView.mk None) 2 MapView.attic
                eq_refl) as (_ & _ & _ & Hlookup' & _).
  split; [exact Hlookup | exact Hlookup'].
Defined.

(** X5. The buttons test the current id for truth, so a world whose id is 0
    can be selected, shown and have its buttons enabled, and still none of the
    three buttons emits anything; nor do they before any selection. *)
Theorem world_zero_is_mute {DB} `{!MapView.Repositories DB} (d : DB)
    (self : MapView.t) (world : MapView.RepoWorld) :
  MapView.get_world d 0 = Some world ->
  let o := MapView.on_world_selected 0 d self in
  MapView.switched o.2 = [("enter_btn", true); ("quest_btn", true); ("refresh_btn", true)]
  /\ MapView.on_enter_dungeon o.1 = (o.1, [])
  /\ MapView.on_open_quest_board o.1 = (o.1, [])
  /\ MapView.on_refresh_world o.1 = (o.1, [])
  /\ MapView.on_enter_dungeon (MapView.init d).1 = ((MapView.init d).1, [])
  /\ MapView.on_open_quest_board (MapView.init d).1 = ((MapView.init d).1, [])
  /\ MapView.on_refresh_world (MapView.init d).1 = ((MapView.init d).1, []).
Proof.
  intros Hworld o.
  destruct (existing_world_is_shown_aux d self 0 world Hworld) as (Hcur & Hsw).
  fold o in Hcur, Hsw. split; [exact Hsw|].
  unfold MapView.on_enter_dungeon, MapView.on_open_quest_board, MapView.on_refresh_world,
    MapView.emit_current.
  rewrite Hcur. repeat split.
Qed.

Lemma world_zero_is_mute_witness :
  MapView.on_enter_dungeon (MapView.on_world_selected 0 MapView.atlas (MapView.mk None)).1
  = (MapView.mk (Some 0), []).
Proof.
  pose proof (world_zero_is_mute MapView.atlas (MapView.mk None) MapView.limbo eq_refl)
    as (_ & Henter & _).
  exact Henter.
Defined.

(** ** The combat dialog *)

Lemma execute_action_unfold {DB} `{!Backend DB} (self : CombatDialog.t DB)
    (action : string) (speed_delay : Z) :
  py_int (speed_setting self) = Some speed_delay ->
  let self1 := after_turn self action in
  let shown :=
    opening self action
    ++ reveal speed_delay (turn_message self action) (CombatDialog.enemy self1)
         (CombatDialog.combat_player self1) in
  CombatDialog.execute_action action self =
  if turn_continues self action then (Ok tt, self1, shown)
  else
    (result_of (CombatDialog.combat_ended (turn_result self action) self1),
     state_of (CombatDialog.combat_ended (turn_result self action) self1),
     shown ++ trace_of (CombatDialog.combat_ended (turn_result self action) self1)).
Proof.
  intros Hparse self1 shown.
  unfold CombatDialog.execute_action, CombatDialog.call_combat_turn.
  subst shown self1.
  unfold turn_message, turn_continues, turn_result, opening, speed_setting, after_turn in *.
  unfold mbind, run_mbind, mret, run_mret, bind, ret, gui, tell, query. simpl.
  destruct (combat_turn (CombatDialog.combat_player self) (CombatDialog.enemy self) action)
    as [[cp e] [[message continues] result]].
  simpl. rewrite Hparse. unfold reveal, result_of, state_of, trace_of.
  destruct continues.
  - destruct (0 <? speed_delay); reflexivity.
  - destruct (0 <? speed_delay); simpl;
      destruct (CombatDialog.combat_ended result _) as [[r s2] t2];
      destruct r; reflexivity.
Qed.

Lemma reveal_shows_no_box (speed_delay : Z) (message : string) (enemy : Enemy.t)
    (combat_player : Player.t) :
  let t := reveal speed_delay message enemy combat_player in
  boxes t = [] /\ signals t = [] /\ closings t = [] /\ disabled t = []
  /\ updated t = [] /\ handed_over t = [] /\ calls t = [].
Proof. unfold reveal. destruct (0 <? speed_delay); repeat split. Qed.

(** X6. A [combat_text_speed] setting that [int] refuses makes
    [execute_action] raise [ValueError] in the middle of the turn:
    [combat_turn] has already been played on the combat player and the enemy,
    but nothing is logged, displayed, disabled, stored or signalled; the
    toolkit is not reached, so its limits play no part. *)
Theorem bad_speed_setting_raises {DB} `{!Backend DB} (self : CombatDialog.t DB)
    (action : string) :
  py_int (speed_setting self) = None ->
  let o := CombatDialog.execute_action action self in
  Checked.execute_action action self = o
  /\ result_of o = Raised "ValueError"
  /\ state_of o = after_turn self action
  /\ calls (trace_of o) =
     [ CombatTurn (CombatDialog.combat_player self) (CombatDialog.enemy self) action;
       GetSetting "combat_text_speed" "0" ]
  /\ guis (trace_of o) = [].
Proof.
  intros Hparse o. subst o. rewrite (execute_action_raises self action Hparse).
  split; [|repeat split].
  unfold Checked.execute_action, CombatDialog.call_combat_turn, speed_setting, after_turn,
    opening in *.
  unfold mbind, run_mbind, bind, query. simpl.
  destruct (combat_turn (CombatDialog.combat_player self) (CombatDialog.enemy self) action)
    as [[cp e] [[message continues] result]].
  simpl. rewrite Hparse. reflexivity.
Qed.

Lemma bad_speed_setting_raises_witness :
  result_of (Checked.execute_action "attack" Mem.garbled_slime_fight) = Raised "ValueError"
  /\ Enemy.hp (CombatDialog.enemy
                (state_of (Checked.execute_action "attack" Mem.garbled_slime_fight))) = -5.
Proof.
  pose proof (bad_speed_setting_raises Mem.garbled_slime_fight "attack" eq_refl)
    as (Hsame & Hraised & Hstate & _).
  rewrite Hsame. split; [exact Hraised|]. rewrite Hstate. reflexivity.
Defined.

(** X7. A turn that does not end the combat leaves the dialog open and the
    stored world alone: the base player, the bonuses and the database are
    unchanged, [combat_turn] is the only rules or repository call, no button
    is disabled, no box is shown, nothing is signalled and the dialog is
    neither accepted nor rejected. *)
Theorem continuing_turn_changes_nothing_stored {DB} `{!Backend DB}
    (self : CombatDialog.t DB) (action : string) (speed_delay : Z) :
  py_int (speed_setting self) = Some speed_delay ->
  turn_continues self action = true ->
  let o := CombatDialog.execute_action action self in
  result_of o = Ok tt
  /\ CombatDialog.player (state_of o) = CombatDialog.player self
  /\ CombatDialog.equipped_bonuses (state_of o) = CombatDialog.equipped_bonuses self
  /\ CombatDialog.database (state_of o) = CombatDialog.database self
  /\ engine_calls (trace_of o) =
     [CombatTurn (CombatDialog.combat_player self) (CombatDialog.enemy self) action]
  /\ disabled (trace_of o) = [] /\ boxes (trace_of o) = []
  /\ signals (trace_of o) = [] /\ closings (trace_of o) = [].
Proof.
  intros Hparse Hcontinues o. subst o.
  rewrite (execute_action_unfold self action speed_delay Hparse), Hcontinues.
  unfold result_of, state_of, trace_of, opening, reveal. cbn [fst snd].
  destruct (0 <? speed_delay); repeat split.
Qed.

Lemma continuing_turn_changes_nothing_stored_witness :
  closings (trace_of (CombatDialog.execute_action "defend" Mem.slime_fight)) = []
  /\ CombatDialog.player (state_of (CombatDialog.execute_action "defend" Mem.slime_fight))
     = Mem.hero.
Proof.
  pose proof (continuing_turn_changes_nothing_stored Mem.slime_fight "defend" 0
                eq_refl eq_refl) as (_ & Hplayer & _ & _ & _ & _ & _ & _ & Hclosings).
  split; [exact Hclosings | exact Hplayer].
Defined.

Lemma combat_ended_fled {DB} `{!Backend DB} (self : CombatDialog.t DB) :
  CombatDialog.combat_ended "fled" self =
  (Ok tt, self,
   [ Ui (setEnabled "attack_btn" false); Ui (setEnabled "defend_btn" false);
     Ui (setEnabled "flee_btn" false);
     Ui (emit "combat_ended" "fled" NoData); Ui reject ]).
Proof. reflexivity. Qed.

(** X8. Fleeing closes the dialog without touching the player: the three
    buttons are disabled, [combat_ended] is emitted once with ["fled"] and no
    data, the dialog is rejected, and nothing is written back, handed to the
    rules module, stored or shown in a box. *)
Theorem fleeing_stores_nothing {DB} `{!Backend DB} (self : CombatDialog.t DB)
    (action : string) (speed_delay : Z) :
  py_int (speed_setting self) = Some speed_delay ->
  turn_continues self action = false ->
  turn_result self action = "fled" ->
  let o := CombatDialog.execute_action action self in
  result_of o = Ok tt
  /\ CombatDialog.player (state_of o) = CombatDialog.player self
  /\ CombatDialog.database (state_of o) = CombatDialog.database self
  /\ disabled (trace_of o) = ["attack_btn"; "defend_btn"; "flee_btn"]
  /\ signals (trace_of o) = [("fled", NoData)]
  /\ closings (trace_of o) = [reject]
  /\ boxes (trace_of o) = []
  /\ updated (trace_of o) = [] /\ handed_over (trace_of o) = [].
Proof.
  intros Hparse Hends Hfled o. subst o.
  rewrite (execute_action_unfold self action speed_delay Hparse), Hends, Hfled.
  rewrite combat_ended_fled.
  unfold result_of, state_of, trace_of, opening, reveal. cbn [fst snd].
  destruct (0 <? speed_delay); repeat split.
Qed.

Lemma fleeing_stores_nothing_witness :
  signals (trace_of (CombatDialog.execute_action "flee" Mem.ogre_fight)) = [("fled", NoData)]
  /\ closings (trace_of (CombatDialog.execute_action "flee" Mem.ogre_fight)) = [reject]
  /\ updated (trace_of (CombatDialog.execute_action "flee" Mem.ogre_fight)) = [].
Proof.
  pose proof (fleeing_stores_nothing Mem.ogre_fight "flee" 0 eq_refl eq_refl eq_refl)
    as (_ & _ & _ & _ & Hsignals & Hclosings & _ & Hupdated & _).
  split; [exact Hsignals|]. split; [exact Hclosings | exact Hupdated].
Defined.

Lemma combat_ended_victory {DB} `{!Backend DB} (self : CombatDialog.t DB) :
  let r := handle_victory (written_back self) (CombatDialog.enemy self)
             (CombatDialog.loot_quality self) (CombatDialog.database self) in
  let p := r.1.1 in
  let d := PlayerRepository_update p r.1.2 in
  let loot := r.2.1.1 in
  let xp := r.2.1.2 in
  let leveled_up := r.2.2 in
  CombatDialog.combat_ended "victory" self =
  (Ok tt,
   CombatDialog.mk p (CombatDialog.enemy self) (CombatDialog.loot_quality self)
     (CombatDialog.equipped_bonuses self) (CombatDialog.combat_player self) d,
   [ Ui (setEnabled "attack_btn" false); Ui (setEnabled "defend_btn" false);
     Ui (setEnabled "flee_btn" false);
     Called (HandleVictory (written_back self) (CombatDialog.enemy self)
               (CombatDialog.loot_quality self));
     Called (UpdatePlayer p) ]
   ++ (match loot with
       | Some _ => []
       | None => [ Called (GetInventoryCount (Player.id p));
                   Called (CalculateInventorySpace (Player.level p)) ]
       end)
   ++ [ Ui (information "Victory!"
              (victory_message loot xp (ItemRepository_get_inventory_count d (Player.id p))
                 (calculate_inventory_space (Player.level p)))) ]
   ++ (if leveled_up
       then [Ui (information "Level Up!"
                   (CombatDialog.level_up_msg (Player.name p) (Player.level p)))]
       else [])
   ++ [ Ui (emit "combat_ended" "victory" (VictoryData loot xp leveled_up)); Ui accept ]).
Proof.
  intros r p d loot xp leveled_up. subst p d loot xp leveled_up r.
  unfold CombatDialog.combat_ended, CombatDialog.on_victory, CombatDialog.write_back_hp,
    CombatDialog.call_handle_victory, CombatDialog.update_player, victory_message,
    inventory_full_warning.
  unfold mbind, run_mbind, mret, run_mret, bind, ret, get, gui, tell, query, command,
    compute. simpl.
  fold (written_back self).
  destruct (handle_victory (written_back self) (CombatDialog.enemy self)
              (CombatDialog.loot_quality self) (CombatDialog.database self))
    as [[p d] [[loot xp] leveled_up]].
  simpl. destruct loot as [loot|]; simpl.
  - destruct leveled_up; reflexivity.
  - destruct (calculate_inventory_space (Player.level p)
                <=? ItemRepository_get_inventory_count (PlayerRepository_update p d)
                      (Player.id p));
      destruct leveled_up; reflexivity.
Qed.

Lemma combat_ended_defeat {DB} `{!Backend DB} (self : CombatDialog.t DB) :
  let r := handle_defeat (written_back self) (CombatDialog.database self) in
  CombatDialog.combat_ended "defeat" self =
  (Ok tt,
   CombatDialog.mk r.1.1 (CombatDialog.enemy self) (CombatDialog.loot_quality self)
     (CombatDialog.equipped_bonuses self) (CombatDialog.combat_player self)
     (PlayerRepository_update r.1.1 r.1.2),
   [ Ui (setEnabled "attack_btn" false); Ui (setEnabled "defend_btn" false);
     Ui (setEnabled "flee_btn" false);
     Called (HandleDefeat (written_back self));
     Called (UpdatePlayer r.1.1);
     Ui (warning "Defeat" ("Defeat! You lost " +:+ str (xp_lost r.2) +:+ " XP."));
     Ui (emit "combat_ended" "defeat" (DefeatData r.2));
     Ui reject ]).
Proof.
  intros r. subst r.
  unfold CombatDialog.combat_ended, CombatDialog.on_defeat, CombatDialog.write_back_hp,
    CombatDialog.call_handle_defeat, CombatDialog.update_player.
  unfold mbind, run_mbind, mret, run_mret, bind, ret, get, gui, tell, query, command,
    compute. simpl.
  fold (written_back self).
  destruct (handle_defeat (written_back self) (CombatDialog.database self)) as [[p d] pen].
  reflexivity.
Qed.

(** X9. A victory is reported from what [handle_victory] returned: one
    "Victory!" box with the experience gained and either the loot obtained or,
    when there was no loot and the inventory count read after the store has
    reached the capacity for the player's new level, the inventory-full
    warning; the inventory is counted only when there was no loot; a
    "Level Up!" box with the new level follows exactly when the player
    leveled up; then [combat_ended] is emitted with ["victory"] and that
    data, and the dialog is accepted. *)
Theorem victory_is_reported {DB} `{!Backend DB} (self : CombatDialog.t DB)
    (action : string) (speed_delay : Z) :
  py_int (speed_setting self) = Some speed_delay ->
  turn_continues self action = false ->
  turn_result self action = "victory" ->
  let self1 := after_turn self action in
  let r := handle_victory (written_back self1) (CombatDialog.enemy self1)
             (CombatDialog.loot_quality self) (CombatDialog.database self) in
  let p := r.1.1 in
  let d := PlayerRepository_update p r.1.2 in
  let loot := r.2.1.1 in
  let xp := r.2.1.2 in
  let leveled_up := r.2.2 in
  let t := trace_of (CombatDialog.execute_action action self) in
  CombatDialog.player (state_of (CombatDialog.execute_action action self)) = p
  /\ CombatDialog.database (state_of (CombatDialog.execute_action action self)) = d
  /\ informed "Victory!" t =
     [victory_message loot xp (ItemRepository_get_inventory_count d (Player.id p))
        (calculate_inventory_space (Player.level p))]
  /\ informed "Level Up!" t =
     (if leveled_up
      then [CombatDialog.level_up_msg (Player.name p) (Player.level p)] else [])
  /\ List.filter reads (calls t) =
     GetSetting "combat_text_speed" "0"
       :: (match loot with
           | Some _ => []
           | None => [ GetInventoryCount (Player.id p);
                       CalculateInventorySpace (Player.level p) ]
           end)
  /\ signals t = [("victory", VictoryData loot xp leveled_up)]
  /\ closings t = [accept].
Proof.
  intros Hparse Hends Hvictory self1 r p d loot xp leveled_up t. subst t.
  rewrite (execute_action_unfold self action speed_delay Hparse), Hends, Hvictory.
  fold self1. rewrite (combat_ended_victory self1).
  change (CombatDialog.loot_quality self1) with (CombatDialog.loot_quality self).
  change (CombatDialog.database self1) with (CombatDialog.database self).
  fold r. fold p. fold d. fold loot. fold xp. fold leveled_up.
  unfold result_of, state_of, trace_of, opening, reveal. cbn [fst snd].
  clearbody loot xp leveled_up d p.
  split; [reflexivity|]. split; [reflexivity|].
  destruct (0 <? speed_delay), loot, leveled_up; repeat split.
Qed.

Lemma victory_is_reported_witness :
  informed "Victory!" (trace_of (CombatDialog.execute_action "attack" Mem.slime_fight))
  = ["Victory! You gained 10 XP!"]
  /\ closings (trace_of (CombatDialog.execute_action "attack" Mem.slime_fight)) = [accept].
Proof.
  pose proof (victory_is_reported Mem.slime_fight "attack" 0 eq_refl eq_refl eq_refl)
    as (_ & _ & Hbox & _ & _ & _ & Hclosings).
  split; [exact Hbox | exact Hclosings].
Defined.

(** X10. A defeat is reported from what [handle_defeat] returned: one
    warning box "Defeat! You lost N XP." with N the penalty's [xp_lost], the
    player stored as [handle_defeat] left it, [combat_ended] emitted with
    ["defeat"] and the penalties, and the dialog rejected, never accepted. *)
Theorem defeat_is_reported {DB} `{!Backend DB} (self : CombatDialog.t DB)
    (action : string) (speed_delay : Z) :
  py_int (speed_setting self) = Some speed_delay ->
  turn_continues self action = false ->
  turn_result self action = "defeat" ->
  let self1 := after_turn self action in
  let r := handle_defeat (written_back self1) (CombatDialog.database self) in
  let t := trace_of (CombatDialog.execute_action action self) in
  CombatDialog.player (state_of (CombatDialog.execute_action action self)) = r.1.1
  /\ CombatDialog.database (state_of (CombatDialog.execute_action action self)) =
     PlayerRepository_update r.1.1 r.1.2
  /\ boxes t = [warning "Defeat" ("Defeat! You lost " +:+ str (xp_lost r.2) +:+ " XP.")]
  /\ signals t = [("defeat", DefeatData r.2)]
  /\ closings t = [reject].
Proof.
  intros Hparse Hends Hdefeat self1 r t. subst t.
  rewrite (execute_action_unfold self action speed_delay Hparse), Hends, Hdefeat.
  fold self1. rewrite (combat_ended_defeat self1).
  change (CombatDialog.database self1) with (CombatDialog.database self).
  fold r. unfold result_of, state_of, trace_of, opening, reveal. cbn [fst snd].
  clearbody r.
  split; [reflexivity|]. split; [reflexivity|].
  destruct (0 <? speed_delay); repeat split.
Qed.

Lemma defeat_is_reported_witness :
  boxes (trace_of (CombatDialog.execute_action "defend" Mem.ogre_fight))
  = [warning "Defeat" "Defeat! You lost 0 XP."]
  /\ closings (trace_of (CombatDialog.execute_action "defend" Mem.ogre_fight)) = [reject].
Proof.
  pose proof (defeat_is_reported Mem.ogre_fight "defend" 0 eq_refl eq_refl eq_refl)
    as (_ & _ & Hbox & _ & Hclosings).
  split; [exact Hbox | exact Hclosings].
Defined.

(** X11. The hp bars never show damage.  [update_display] sets a bar's
    maximum from the current hp, not from the hp at the start of the combat:
    for every hp the toolkit takes (up to 2147483647), whenever the hp is at
    least 1 the value given to the bar equals the maximum given to it (a full
    bar), and at hp 0 or below the bar gets value 0 of maximum 1. *)
Theorem hp_bars_are_full_or_empty {DB} `{!Backend DB} (self : CombatDialog.t DB) :
  Enemy.hp (CombatDialog.enemy self) <= 2147483647 ->
  Player.hp (CombatDialog.combat_player self) <= 2147483647 ->
  let t := trace_of (Checked.update_display self) in
  let e := Enemy.hp (CombatDialog.enemy self) in
  let p := Player.hp (CombatDialog.combat_player self) in
  (1 <= e -> values_of "enemy_hp_bar" t = [e] /\ maxima_of "enemy_hp_bar" t = [e])
  /\ (e <= 0 -> values_of "enemy_hp_bar" t = [0] /\ maxima_of "enemy_hp_bar" t = [1])
  /\ (1 <= p -> values_of "player_hp_bar" t = [p] /\ maxima_of "player_hp_bar" t = [p])
  /\ (p <= 0 -> values_of "player_hp_bar" t = [0] /\ maxima_of "player_hp_bar" t = [1]).
Proof.
  intros He Hp t e p. subst t. rewrite (checked_update_display_run self He Hp).
  unfold trace_of, display_events.
  cbn [snd]. fold e p. clearbody e p.
  unfold values_of, maxima_of. cbn -[Z.max].
  split; [|split; [|split]]; intros Hhp; split; f_equal; lia.
Qed.

Lemma hp_bars_are_full_or_empty_witness :
  values_of "enemy_hp_bar" (trace_of (Checked.update_display Mem.ogre_fight)) = [500]
  /\ maxima_of "enemy_hp_bar" (trace_of (Checked.update_display Mem.ogre_fight)) = [500].
Proof.
  pose proof (hp_bars_are_full_or_empty Mem.ogre_fight ltac:(vm_compute; congruence)
                ltac:(vm_compute; congruence)) as (Hfull & _).
  exact (Hfull ltac:(vm_compute; congruence)).
Defined.

(** ** Equipped bonuses *)

Lemma equipped_total_items (stat : string) (inventory : list InvEntry) :
  equipped_total stat inventory =
  foldr Z.add 0 (map (item_bonus stat) (equipped_items inventory)).
Proof.
  unfold equipped_total, equipped_items. rewrite map_map. reflexivity.
Qed.

Lemma sum_of_permutation (l l' : list Z) :
  l ≡ₚ l' -> foldr Z.add 0 l = foldr Z.add 0 l'.
Proof.
  induction 1 as [|x l l' _ IH|x y l|l l' l'' _ IH1 _ IH2]; simpl; lia.
Qed.

(** X12. The aggregated bonuses depend only on which items are equipped:
    two inventories whose equipped items are the same up to order give the
    same bonuses, whatever their order, their quantities and the entries that
    are not equipped. *)
Theorem bonuses_depend_on_equipped_items (inventory inventory' : list InvEntry) :
  equipped_items inventory ≡ₚ equipped_items inventory' ->
  sum_equipped_bonuses inventory = sum_equipped_bonuses inventory'.
Proof.
  intros Hperm. apply map_eq. intros stat. rewrite !sum_equipped_bonuses_lookup.
  destruct (bool_decide (stat ∈ known_stats)); [|reflexivity].
  f_equal. rewrite !equipped_total_items.
  apply sum_of_permutation, fmap_Permutation, Hperm.
Qed.

Lemma bonuses_depend_on_equipped_items_witness :
  sum_equipped_bonuses Mem.bag =
  sum_equipped_bonuses [(Mem.shield, 40, true); (Mem.sword, 7, true)].
Proof.
  apply (bonuses_depend_on_equipped_items Mem.bag
           [(Mem.shield, 40, true); (Mem.sword, 7, true)]).
  apply Permutation_swap.
Defined.

(** X13. Bonuses add up across inventories: for each of the five stats the
    bonus of two inventories put together is the sum of their bonuses, and
    an inventory with nothing equipped (the empty one included) gives 0 for
    every stat. *)
Theorem bonuses_add_up (inventory inventory' : list InvEntry) (stat : string) :
  stat ∈ known_stats ->
  getitem (sum_equipped_bonuses (inventory ++ inventory')) stat =
    getitem (sum_equipped_bonuses inventory) stat
    + getitem (sum_equipped_bonuses inventory') stat
  /\ (equipped_items inventory = [] -> getitem (sum_equipped_bonuses inventory) stat = 0).
Proof.
  intros Hstat. rewrite !getitem_sum_equipped_bonuses by assumption.
  rewrite !equipped_total_items. split.
  - unfold equipped_items. rewrite filter_app, !map_app, foldr_app.
    generalize (map (item_bonus stat)
                  (map (fun e : InvEntry => e.1.1)
                     (filter (fun e : InvEntry => e.2 = true) inventory'))).
    generalize (map (item_bonus stat)
                  (map (fun e : InvEntry => e.1.1)
                     (filter (fun e : InvEntry => e.2 = true) inventory))).
    intros l l'. induction l as [|x l IH]; simpl; [lia|]. rewrite IH. lia.
  - intros ->. reflexivity.
Qed.

Lemma bonuses_add_up_witness :
  getitem (sum_equipped_bonuses (Mem.bag ++ Mem.bag)) "hp" = 20 + 20
  /\ getitem (sum_equipped_bonuses [(Mem.ring, 2, false)]) "luck" = 0.
Proof.
  split.
  - exact (proj1 (bonuses_add_up Mem.bag Mem.bag "hp" ltac:(compute_done))).
  - exact (proj2 (bonuses_add_up [(Mem.ring, 2, false)] [] "luck" ltac:(compute_done))
             eq_refl).
Defined.

(** X14. With nothing equipped the combat player is the player: every
    field of the record built by [CombatDialog.__init__] equals the one of
    the player passed in, and the bars are set up for the base hp. *)
Theorem nothing_equipped_fights_as_is {DB} `{!Backend DB} (player : Player.t)
    (enemy : Enemy.t) (loot_quality : Z) (d : DB) :
  equipped_items (ItemRepository_get_player_inventory d (Player.id player)) = [] ->
  let o := CombatDialog.init player enemy loot_quality d in
  CombatDialog.combat_player (state_of o) = player
  /\ CombatDialog.player (state_of o) = player
  /\ maxima_of "player_hp_bar" (trace_of o) =
     [Player.hp player; Z.max (Player.hp player) 1].
Proof.
  intros Hnone o.
  assert (Hzero : forall stat, stat ∈ known_stats ->
            getitem (sum_equipped_bonuses
                       (ItemRepository_get_player_inventory d (Player.id player))) stat = 0).
  { intros stat Hstat. rewrite getitem_sum_equipped_bonuses by assumption.
    rewrite equipped_total_items, Hnone. reflexivity. }
  subst o. unfold CombatDialog.init, state_of, trace_of. simpl.
  rewrite !Hzero by compute_done. rewrite !Z.add_0_r.
  destruct player. repeat split.
Qed.

Lemma nothing_equipped_fights_as_is_witness :
  CombatDialog.combat_player
    (state_of (CombatDialog.init Mem.hero Mem.slime 1
                 (Mem.mk [(Mem.ring, 2, false)] [] []))) = Mem.hero.
Proof.
  exact (proj1 (nothing_equipped_fights_as_is Mem.hero Mem.slime 1
                  (Mem.mk [(Mem.ring, 2, false)] [] []) eq_refl)).
Defined.

(** ** The inventory tables *)

Lemma recycler_rows_cells {DB} `{!Backend DB} (inventory : list InvEntry) (n : nat)
    (g : GameState DB) :
  exists t,
    for_each RecyclerDialog.inventory_row n inventory g = (Ok tt, g, t)
    /\ cell_widgets t =
       imap (fun i (e : InvEntry) => ((n + i)%nat, SellCell 1 e.1.2 1 (Item.id e.1.1)))
            inventory
    /\ row_names t =
       imap (fun i (e : InvEntry) =>
               ((n + i)%nat,
                if e.2 then Item.name e.1.1 +:+ " [EQUIPPED]" else Item.name e.1.1))
            inventory.
Proof.
  revert n. induction inventory as [|[[item quantity] equipped] rest IH]; intros n.
  - exists []. repeat split.
  - destruct (IH (S n)) as (t & E & Hcells & Hnames).
    eexists. split; [|split].
    + simpl. unfold bind at 1. simpl. rewrite E. reflexivity.
    + unfold cell_widgets in *. cbn -[String.append]. rewrite Hcells.
      rewrite Nat.add_0_r. f_equal. apply imap_ext. intros i e _. simpl.
      repeat f_equal. lia.
    + unfold row_names in *. cbn -[String.append]. rewrite Hnames.
      rewrite Nat.add_0_r. f_equal. apply imap_ext. intros i e _. simpl.
      repeat f_equal. lia.
Qed.

Lemma player_view_rows_cells {DB} `{!Backend DB} (inventory : list InvEntry) (n : nat)
    (g : GameState DB) :
  exists t,
    for_each PlayerView.inventory_row n inventory g = (Ok tt, g, t)
    /\ cell_widgets t =
       imap (fun i (e : InvEntry) =>
               ((n + i)%nat,
                if e.2 then UnequipButton (Item.id e.1.1) else EquipButton (Item.id e.1.1)))
            inventory.
Proof.
  revert n. induction inventory as [|[[item quantity] equipped] rest IH]; intros n.
  - exists []. repeat split.
  - destruct (IH (S n)) as (t & E & Hcells).
    eexists. split.
    + simpl. unfold bind at 1. simpl. rewrite E. reflexivity.
    + unfold cell_widgets in *. cbn -[String.append]. rewrite Hcells.
      rewrite Nat.add_0_r. f_equal. apply imap_ext. intros i e _. simpl.
      repeat f_equal. lia.
Qed.

(** X15. Without a current player the two inventory views read nothing:
    [RecyclerDialog.refresh_inventory] only empties its table, and
    [PlayerView.refresh] only writes "Name: No player selected", leaving every
    other label, the table and the achievements as they were. *)
Theorem views_without_player_read_nothing {DB} `{!Backend DB} (g : GameState DB) :
  current_player g = None ->
  RecyclerDialog.refresh_inventory g = (Ok tt, g, [Ui (setRowCount "inventory_table" 0)])
  /\ PlayerView.refresh g = (Ok tt, g, [Ui (setText "name_label" "Name: No player selected")]).
Proof.
  intros Hnone. unfold RecyclerDialog.refresh_inventory, PlayerView.refresh.
  unfold mbind, run_mbind, mret, run_mret, bind, ret, get, gui, tell. simpl.
  rewrite Hnone. split; reflexivity.
Qed.

Lemma views_without_player_read_nothing_witness :
  calls (trace_of (RecyclerDialog.refresh_inventory Mem.no_player)) = []
  /\ calls (trace_of (PlayerView.refresh Mem.no_player)) = [].
Proof.
  pose proof (views_without_player_read_nothing Mem.no_player eq_refl) as (Hsell & Hview).
  rewrite Hsell, Hview. split; reflexivity.
Defined.

Lemma spin_box_in_range (quantity item_id : Z) :
  1 <= quantity ->
  spin_box_of (SellCell 1 quantity 1 item_id) = Some (QSpinBox.mk 1 quantity 1).
Proof.
  intros Hq.
  unfold spin_box_of, QSpinBox.setValue, QSpinBox.setMaximum, QSpinBox.setMinimum,
    QSpinBox.setRange, QSpinBox.bound, QSpinBox.fresh. simpl.
  destruct (Z.ltb_spec 1 quantity); simpl.
  - destruct (Z.ltb_spec 1 quantity); [|lia]. simpl. repeat f_equal; lia.
  - assert (quantity = 1) as -> by lia. reflexivity.
Qed.

Lemma spin_boxes_of_cells (inventory : list InvEntry) (n : nat) :
  Forall (fun e : InvEntry => 1 <= e.1.2 <= 2147483647) inventory ->
  omap (fun rw : nat * CellWidget => spin_box_of rw.2)
       (imap (fun i (e : InvEntry) => ((n + i)%nat, SellCell 1 e.1.2 1 (Item.id e.1.1)))
             inventory)
  = map (fun e : InvEntry => QSpinBox.mk 1 e.1.2 1) inventory.
Proof.
  intros Hheld. revert n.
  induction Hheld as [|[[item quantity] equipped] rest Hq _ IH]; intros n; [reflexivity|].
  simpl in Hq. rewrite imap_cons. cbn -[spin_box_of].
  rewrite spin_box_in_range by lia. f_equal.
  rewrite <- (IH (S n)). f_equal. apply imap_ext. intros i e _. simpl.
  f_equal. lia.
Qed.

(** X16. The recycler lists the player's inventory row by row: row [i] is
    entry [i] of [ItemRepository.get_player_inventory], named after its item
    (marked [EQUIPPED] when it is), and its Sell cell is bound to that item's
    id.  When every quantity held is at least 1 (and a C int), each cell's
    spin box is left with the range from 1 to the quantity held and the value
    1. *)
Theorem recycler_lists_the_inventory {DB} `{!Backend DB} (g : GameState DB)
    (player : Player.t) :
  current_player g = Some player ->
  let inventory := ItemRepository_get_player_inventory (db g) (Player.id player) in
  Forall (fun e : InvEntry => 1 <= e.1.2 <= 2147483647) inventory ->
  let o := RecyclerDialog.refresh_inventory g in
  result_of o = Ok tt /\ state_of o = g
  /\ calls (trace_of o) = [GetPlayerInventory (Player.id player)]
  /\ cell_widgets (trace_of o) =
     imap (fun i (e : InvEntry) => (i, SellCell 1 e.1.2 1 (Item.id e.1.1))) inventory
  /\ omap (fun rw : nat * CellWidget => spin_box_of rw.2) (cell_widgets (trace_of o)) =
     map (fun e : InvEntry => QSpinBox.mk 1 e.1.2 1) inventory
  /\ row_names (trace_of o) =
     imap (fun i (e : InvEntry) =>
             (i, if e.2 then Item.name e.1.1 +:+ " [EQUIPPED]" else Item.name e.1.1))
          inventory.
Proof.
  intros Hp inventory Hheld o.
  destruct (recycler_rows_cells inventory 0 g) as (t & E & Hcells & Hnames).
  destruct (recycler_rows inventory g) as (t' & E' & Htable).
  assert (t' = t) as -> by congruence.
  destruct (fills_table_silent t "" "" Htable) as (Hcalls & _).
  subst o. unfold RecyclerDialog.refresh_inventory.
  unfold mbind, run_mbind, mret, run_mret, bind, ret, get, gui, tell, query. simpl.
  rewrite Hp. simpl. fold inventory. rewrite E.
  unfold result_of, state_of, trace_of. simpl.
  split; [reflexivity|]. split; [destruct g; reflexivity|].
  split; [unfold calls in *; simpl; rewrite Hcalls; reflexivity|].
  split; [exact Hcells|]. split; [|exact Hnames].
  change (cell_widgets (Ui (setRowCount "inventory_table" 0)
                          :: Called (GetPlayerInventory (Player.id player)) :: t))
    with (cell_widgets t).
  rewrite Hcells. exact (spin_boxes_of_cells inventory 0 Hheld).
Qed.

Lemma recycler_lists_the_inventory_witness :
  cell_widgets (trace_of (RecyclerDialog.refresh_inventory Mem.state)) =
  [(0%nat, SellCell 1 1 1 7); (1%nat, SellCell 1 3 1 8); (2%nat, SellCell 1 2 1 9)]
  /\ omap (fun rw : nat * CellWidget => spin_box_of rw.2)
          (cell_widgets (trace_of (RecyclerDialog.refresh_inventory Mem.state))) =
     [QSpinBox.mk 1 1 1; QSpinBox.mk 1 3 1; QSpinBox.mk 1 2 1].
Proof.
  assert (Hheld : Forall (fun e : InvEntry => 1 <= e.1.2 <= 2147483647) Mem.bag)
    by (repeat constructor; simpl; lia).
  pose proof (recycler_lists_the_inventory Mem.state Mem.hero eq_refl Hheld)
    as (_ & _ & _ & Hcells & Hboxes & _).
  split; [exact Hcells | exact Hboxes].
Defined.

(** What the toolkit makes of a quantity below 1: the spin box is dragged to
    the quantity, so its range no longer starts at 1. *)
Example spin_box_for_nothing_held :
  spin_box_of (SellCell 1 0 1 7) = Some (QSpinBox.mk 0 0 0)
  /\ spin_box_of (SellCell 1 (-3) 1 7) = Some (QSpinBox.mk (-3) (-3) (-3)).
Proof. split; reflexivity. Qed.

(** ** The player view *)

Lemma completed_quests_run {DB} `{!Backend DB} (worlds : list World.t) (g : GameState DB) :
  PlayerView.completed_quests worlds g =
  (Ok (completed_in (db g) worlds), g,
   map (fun w => Called (GetQuestsByWorldId (World.id w))) worlds).
Proof.
  induction worlds as [|w rest IH]; [reflexivity|].
  simpl. unfold mbind, run_mbind, mret, run_mret, bind, ret, query in *. simpl.
  rewrite IH. simpl. rewrite app_nil_r. reflexivity.
Qed.

Lemma refresh_trace {DB} `{!Backend DB} (g : GameState DB) (player : Player.t) :
  current_player g = Some player ->
  let inventory := ItemRepository_get_player_inventory (db g) (Player.id player) in
  let worlds := RepoWorldRepository_get_all (db g) in
  exists front,
    calls front = [ GetPlayerInventory (Player.id player);
                    GetInventoryCount (Player.id player);
                    CalculateInventorySpace (Player.level player) ]
    /\ cell_widgets front = [] /\ texts_of "achievements_label" front = []
    /\ PlayerView.refresh g =
       (Ok tt, g,
        front
        ++ trace_of (for_each PlayerView.inventory_row 0%nat inventory g)
        ++ Called GetAllWorlds
        :: map (fun w => Called (GetQuestsByWorldId (World.id w))) worlds
        ++ [Ui (setText "achievements_label"
                  (("Worlds Discovered: " +:+ str (Z.of_nat (length worlds))) +:+ nl
                   +:+ ("Quests Completed: " +:+ str (completed_in (db g) worlds))))]).
Proof.
  intros Hp inventory worlds.
  destruct (player_view_rows inventory g) as (rows & Erows & _).
  eexists. split; [|split; [|split]]; cycle 3.
  - unfold PlayerView.refresh.
    unfold mbind, run_mbind, mret, run_mret, bind, ret, get, gui, tell, query, command,
      compute. simpl.
    rewrite Hp. simpl. fold inventory. rewrite Erows. simpl.
    rewrite completed_quests_run. simpl. unfold trace_of. simpl.
    fold worlds.
    match goal with
    | |- (_, _, ?a :: ?b :: ?c :: ?d :: ?e :: ?f :: ?h :: ?i :: ?j :: ?k :: ?l :: ?m
                 :: ?n :: ?o :: ?p :: rows ++ _) = _ =>
        instantiate (1 := [a; b; c; d; e; f; h; i; j; k; l; m; n; o; p])
    end.
    reflexivity.
  - reflexivity.
  - reflexivity.
  - reflexivity.
Qed.

(** X17. The player view lists the inventory row by row and offers on each
    row the one action that changes its state: an Unequip button bound to the
    item's id when the entry is equipped, an Equip button otherwise. *)
Theorem player_view_offers_the_other_state {DB} `{!Backend DB} (g : GameState DB)
    (player : Player.t) :
  current_player g = Some player ->
  let inventory := ItemRepository_get_player_inventory (db g) (Player.id player) in
  cell_widgets (trace_of (PlayerView.refresh g)) =
  imap (fun i (e : InvEntry) =>
          (i, if e.2 then UnequipButton (Item.id e.1.1) else EquipButton (Item.id e.1.1)))
       inventory.
Proof.
  intros Hp inventory.
  destruct (refresh_trace g player Hp) as (front & _ & Hfront & _ & E).
  destruct (player_view_rows_cells inventory 0 g) as (t & Erows & Hcells).
  rewrite E. fold inventory. rewrite Erows. unfold trace_of. cbn [snd].
  unfold cell_widgets in *. rewrite !omap_app, Hfront, Hcells. simpl.
  rewrite omap_app. simpl.
  assert (Hquests : forall ws : list World.t,
            omap (fun e => match e with
                           | Ui (setCellWidget _ row _ w) => Some (row, w)
                           | _ => None
                           end)
                 (map (fun w => Called (GetQuestsByWorldId (World.id w))) ws) = []).
  { induction ws as [|w ws IH]; [reflexivity | exact IH]. }
  rewrite Hquests, app_nil_r. reflexivity.
Qed.

Lemma player_view_offers_the_other_state_witness :
  cell_widgets (trace_of (PlayerView.refresh Mem.state)) =
  [(0%nat, UnequipButton 7); (1%nat, UnequipButton 8); (2%nat, EquipButton 9)].
Proof.
  exact (player_view_offers_the_other_state Mem.state Mem.hero eq_refl).
Defined.

(** X18. The achievements count what the repositories hold: the label shows
    the number of worlds and the number of quests whose status is exactly
    ["completed"], summed over the worlds, and the quests are read once per
    world, in the order of [RepoWorldRepository.get_all]. *)
Theorem achievements_count_completed_quests {DB} `{!Backend DB} (g : GameState DB)
    (player : Player.t) :
  current_player g = Some player ->
  let worlds := RepoWorldRepository_get_all (db g) in
  let t := trace_of (PlayerView.refresh g) in
  texts_of "achievements_label" t =
    [("Worlds Discovered: " +:+ str (Z.of_nat (length worlds))) +:+ nl
     +:+ ("Quests Completed: " +:+ str (completed_in (db g) worlds))]
  /\ omap (fun c => match c with GetQuestsByWorldId w => Some w | _ => None end) (calls t)
     = map World.id worlds.
Proof.
  intros Hp worlds t.
  destruct (refresh_trace g player Hp) as (front & Hcalls & _ & Hlabel & E).
  destruct (player_view_rows (ItemRepository_get_player_inventory (db g) (Player.id player))
              g) as (rows & Erows & Htable).
  destruct (fills_table_silent rows "" "achievements_label" Htable)
    as (Hrcalls & _ & _ & Hrtexts).
  subst t. rewrite E. fold worlds. rewrite Erows. unfold trace_of. cbn [snd].
  clearbody worlds. split.
  - unfold texts_of in *. rewrite !omap_app, Hlabel, Hrtexts. simpl.
    rewrite omap_app. simpl.
    assert (Hquests : forall ws : list World.t,
              omap (fun e => match e with
                             | Ui (setText w text) =>
                                 if String.eqb w "achievements_label" then Some text
                                 else None
                             | _ => None
                             end)
                   (map (fun w => Called (GetQuestsByWorldId (World.id w))) ws) = []).
    { induction ws as [|w ws IH]; [reflexivity | exact IH]. }
    rewrite Hquests. reflexivity.
  - unfold calls in *. rewrite !omap_app, Hcalls, Hrcalls. simpl.
    rewrite omap_app. simpl. rewrite app_nil_r.
    induction worlds as [|w ws IH]; [reflexivity|]. simpl. f_equal. exact IH.
Qed.

Lemma achievements_count_completed_quests_witness :
  texts_of "achievements_label" (trace_of (PlayerView.refresh Mem.state)) =
  ["Worlds Discovered: 0" +:+ nl +:+ "Quests Completed: 0"].
Proof.
  exact (proj1 (achievements_count_completed_quests Mem.state Mem.hero eq_refl)).
Defined.

(** X19. Equipping or unequipping re-renders from the repository as the
    change left it: [equip_item] and [unequip_item] make their one repository
    call and then run [refresh] on the resulting database, so the hp line (and
    with it every stat line) shows the bonuses of the inventory read after
    the change; the current player is not touched. *)
Theorem equipping_shows_the_new_bonuses {DB} `{!Backend DB} (g : GameState DB)
    (player : Player.t) (item_id : Z) :
  current_player g = Some player ->
  let worn :=
    mkGameState (ItemRepository_equip_item (Player.id player) item_id (db g))
      (Some player) in
  let bare :=
    mkGameState (ItemRepository_unequip_item (Player.id player) item_id (db g))
      (Some player) in
  let hp_line := fun g' : GameState DB =>
    PlayerView.stat_text "HP" (Player.hp player)
      (equipped_total "hp" (ItemRepository_get_player_inventory (db g') (Player.id player))) in
  (PlayerView.equip_item item_id g =
     (Ok tt, worn,
      Called (EquipItem (Player.id player) item_id) :: trace_of (PlayerView.refresh worn))
   /\ texts_of "hp_label" (trace_of (PlayerView.equip_item item_id g)) = [hp_line worn])
  /\ (PlayerView.unequip_item item_id g =
        (Ok tt, bare,
         Called (UnequipItem (Player.id player) item_id)
           :: trace_of (PlayerView.refresh bare))
      /\ texts_of "hp_label" (trace_of (PlayerView.unequip_item item_id g)) =
         [hp_line bare]).
Proof.
  intros Hp worn bare hp_line.
  assert (Hshown : forall g' : GameState DB,
            current_player g' = Some player ->
            exists t, PlayerView.refresh g' = (Ok tt, g', t)
                      /\ texts_of "hp_label" t = [hp_line g']).
  { intros g' Hp'.
    destruct (refresh_run g' player Hp') as (rows & quests & achievements & _ & _ & E).
    pose proof (refresh_stat_labels g' player Hp') as (Hhp & _).
    eexists. split; [exact E|]. rewrite E in Hhp. unfold trace_of in Hhp. cbn [snd] in Hhp.
    rewrite Hhp. unfold hp_line.
    rewrite getitem_sum_equipped_bonuses by compute_done. reflexivity. }
  destruct (Hshown worn eq_refl) as (tw & Ew & Hw).
  destruct (Hshown bare eq_refl) as (tb & Eb & Hb).
  split.
  - assert (E : PlayerView.equip_item item_id g =
                (Ok tt, worn, Called (EquipItem (Player.id player) item_id) :: tw)).
    { unfold PlayerView.equip_item.
      unfold mbind, run_mbind, mret, run_mret, bind, ret, get, command. simpl.
      rewrite Hp. simpl. rewrite ?Hp. fold worn. rewrite Ew. reflexivity. }
    rewrite E, Ew. unfold trace_of. cbn [snd]. split; [reflexivity|].
    unfold texts_of in *. simpl. exact Hw.
  - assert (E : PlayerView.unequip_item item_id g =
                (Ok tt, bare, Called (UnequipItem (Player.id player) item_id) :: tb)).
    { unfold PlayerView.unequip_item.
      unfold mbind, run_mbind, mret, run_mret, bind, ret, get, command. simpl.
      rewrite Hp. simpl. rewrite ?Hp. fold bare. rewrite Eb. reflexivity. }
    rewrite E, Eb. unfold trace_of. cbn [snd]. split; [reflexivity|].
    unfold texts_of in *. simpl. exact Hb.
Qed.

Lemma equipping_shows_the_new_bonuses_witness :
  texts_of "hp_label" (trace_of (PlayerView.unequip_item 8 Mem.state)) = ["HP: 100 (100 + 0)"]
  /\ texts_of "hp_label" (trace_of (PlayerView.equip_item 9 Mem.state))
     = ["HP: 120 (100 + 20)"].
Proof.
  pose proof (equipping_shows_the_new_bonuses Mem.state Mem.hero 8 eq_refl)
    as (_ & _ & Hbare).
  pose proof (equipping_shows_the_new_bonuses Mem.state Mem.hero 9 eq_refl)
    as ((_ & Hworn) & _).
  split; [exact Hbare | exact Hworn].
Defined.

(** ** The recycler *)

(** X20. A sale awards between 5 and 100 experience points per unit, and
    splitting a sale changes nothing: selling [a] and then [b] units of an
    item earns what selling [a + b] at once does. *)
Theorem xp_reward_is_linear_and_bounded (item : Item.t) (a b : Z) :
  0 <= a ->
  5 * a <= RecyclerDialog.xp_reward item a <= 100 * a
  /\ RecyclerDialog.xp_reward item (a + b) =
     RecyclerDialog.xp_reward item a + RecyclerDialog.xp_reward item b.
Proof.
  intros Ha. unfold RecyclerDialog.xp_reward. rewrite rarity_xp_lookup.
  unfold rarity_table.
  destruct (String.eqb (Item.rarity item) "common"); [simpl; lia|].
  destruct (String.eqb (Item.rarity item) "uncommon"); [simpl; lia|].
  destruct (String.eqb (Item.rarity item) "rare"); [simpl; lia|].
  destruct (String.eqb (Item.rarity item) "epic"); [simpl; lia|].
  destruct (String.eqb (Item.rarity item) "legendary"); simpl; lia.
Qed.

Lemma xp_reward_is_linear_and_bounded_witness :
  5 * 3 <= RecyclerDialog.xp_reward Mem.ring 3 <= 100 * 3
  /\ RecyclerDialog.xp_reward Mem.ring (3 + 4) =
     RecyclerDialog.xp_reward Mem.ring 3 + RecyclerDialog.xp_reward Mem.ring 4.
Proof.
  exact (xp_reward_is_linear_and_bounded Mem.ring 3 4 ltac:(lia)).
Defined.

(** X21. After a sale the recycler shows, and the game state holds, what
    the collaborators left: the database is the one after the removal and the
    player update, the current player is the one [award_xp] returned, and the
    table is filled again from the inventory read from that database, one Sell
    cell per remaining entry. *)
Theorem sale_rerenders_the_remaining_inventory {DB} `{!Backend DB} (g : GameState DB)
    (player : Player.t) (item : Item.t) (item_id quantity : Z) :
  current_player g = Some player ->
  ItemRepository_get_by_id (db g) item_id = Some item ->
  let player' := (award_xp player (RecyclerDialog.xp_reward item quantity)).1 in
  let d' :=
    PlayerRepository_update player'
      (ItemRepository_remove_from_inventory (Player.id player) item_id quantity (db g)) in
  let o := RecyclerDialog.sell_item item_id quantity g in
  state_of o = mkGameState d' (Some player')
  /\ cell_widgets (trace_of o) =
     imap (fun i (e : InvEntry) => (i, SellCell 1 e.1.2 1 (Item.id e.1.1)))
          (ItemRepository_get_player_inventory d' (Player.id player')).
Proof.
  intros Hp Hitem player' d' o.
  destruct (recycler_rows_cells
              (ItemRepository_get_player_inventory d' (Player.id player')) 0
              (mkGameState d' (Some player'))) as (t & Et & Hcells & _).
  subst o. revert Et Hcells. subst d' player'.
  unfold RecyclerDialog.sell_item, RecyclerDialog.refresh_inventory.
  unfold mbind, run_mbind, mret, run_mret, bind, ret, get, gui, tell, query, command,
    compute, set_current_player. simpl.
  rewrite Hp. simpl. rewrite Hitem.
  destruct (award_xp player (RecyclerDialog.xp_reward item quantity)) as [p' lv].
  simpl. intros Et Hcells. rewrite Et. unfold state_of, trace_of, cell_widgets in *.
  destruct lv; simpl; (split; [reflexivity|]);
    rewrite omap_app, Hcells; simpl; rewrite app_nil_r; reflexivity.
Qed.

Lemma sale_rerenders_the_remaining_inventory_witness :
  cell_widgets (trace_of (RecyclerDialog.sell_item 7 1 Mem.state)) =
  [(0%nat, SellCell 1 3 1 8); (1%nat, SellCell 1 2 1 9)].
Proof.
  exact (proj2 (sale_rerenders_the_remaining_inventory Mem.state Mem.hero Mem.sword 7 1
                  eq_refl eq_refl)).
Defined.

(** X22. The "Level Up!" box of the recycler appears exactly when [award_xp]
    reports a level-up, after the "Item Sold" box, and names the player and
    the level as [award_xp] left them. *)
Theorem sale_announces_level_up {DB} `{!Backend DB} (g : GameState DB)
    (player : Player.t) (item : Item.t) (item_id quantity : Z) :
  current_player g = Some player ->
  ItemRepository_get_by_id (db g) item_id = Some item ->
  let xp := RecyclerDialog.xp_reward item quantity in
  let player' := (award_xp player xp).1 in
  boxes (trace_of (RecyclerDialog.sell_item item_id quantity g)) =
  information "Item Sold" (RecyclerDialog.sold_message quantity item xp)
    :: (if (award_xp player xp).2
        then [information "Level Up!"
                (RecyclerDialog.level_up_msg (Player.name player') (Player.level player'))]
        else []).
Proof.
  intros Hp Hitem xp player'.
  destruct (sell_item_run g player item item_id quantity Hp Hitem) as (rows & Hrows & E).
  rewrite E. unfold trace_of. cbn [snd]. fold xp. fold player'.
  assert (Hboxes : boxes rows = []).
  { eapply omap_none_on; [|exact Hrows].
    intros [c|u] He; try destruct u; simpl in *; congruence. }
  unfold boxes in *. rewrite !omap_app, Hboxes. simpl.
  destruct (award_xp player xp).2; reflexivity.
Qed.

Lemma sale_announces_level_up_witness :
  length (boxes (trace_of (RecyclerDialog.sell_item 8 20 Mem.state))) = 2%nat
  /\ length (boxes (trace_of (RecyclerDialog.sell_item 8 1 Mem.state))) = 1%nat.
Proof.
  pose proof (sale_announces_level_up Mem.state Mem.hero Mem.shield 8 20 eq_refl eq_refl)
    as Hmany.
  pose proof (sale_announces_level_up Mem.state Mem.hero Mem.shield 8 1 eq_refl eq_refl)
    as Hone.
  rewrite Hmany, Hone. split; reflexivity.
Defined.

(** ** From the opening of a combat to its end *)

(** X23. The hp bonus added when the dialog is built is taken off again
    when the combat is decided: for a dialog built by [CombatDialog.__init__],
    when a turn ends the combat in victory or defeat, the record that
    [execute_action] hands to [handle_victory] or [handle_defeat] has as hp the
    player's base hp minus the damage the combat player took in that turn,
    raised to 1 if below; an unharmed player with positive hp gets back exactly
    the base hp, whatever is equipped. *)
Theorem hp_bonus_cancels_out {DB} `{!Backend DB} (player : Player.t) (enemy : Enemy.t)
    (loot_quality : Z) (d : DB) (action : string) (speed_delay : Z) :
  let dialog := state_of (CombatDialog.init player enemy loot_quality d) in
  py_int (speed_setting dialog) = Some speed_delay ->
  turn_continues dialog action = false ->
  turn_result dialog action = "victory" \/ turn_result dialog action = "defeat" ->
  let damage :=
    Player.hp (CombatDialog.combat_player dialog)
    - Player.hp (CombatDialog.combat_player (after_turn dialog action)) in
  exists back,
    handed_over (trace_of (CombatDialog.execute_action action dialog)) = [back]
    /\ Player.hp back = Z.max 1 (Player.hp player - damage)
    /\ (damage = 0 -> 1 <= Player.hp player -> Player.hp back = Player.hp player).
Proof.
  intros dialog Hparse Hends Hresult damage.
  destruct (execute_action_decided dialog action speed_delay Hparse Hends Hresult)
    as (Hhanded & _).
  exists (written_back (after_turn dialog action)). split; [exact Hhanded|].
  subst damage dialog.
  unfold written_back, after_turn, CombatDialog.init, state_of. simpl.
  split; [f_equal; lia|]. intros Hdamage Hhp. lia.
Qed.

Lemma hp_bonus_cancels_out_witness :
  map Player.hp
    (handed_over (trace_of (CombatDialog.execute_action "attack" Mem.slime_fight))) = [100].
Proof.
  destruct (@hp_bonus_cancels_out Mem.DB Mem.backend Mem.hero Mem.slime 1 Mem.store
              "attack" 0 eq_refl eq_refl (or_introl eq_refl))
    as (back & Hhanded & _ & Hsame).
  change (state_of (CombatDialog.init Mem.hero Mem.slime 1 Mem.store))
    with Mem.slime_fight in Hhanded.
  rewrite Hhanded. simpl. f_equal. exact (Hsame eq_refl ltac:(simpl; lia)).
Defined.
